(** * Jubilee backend: the authentication and password-reset flow

    A shallow embedding of [src/services/UserService.js] and of the
    [AuthController] class, with the collaborators that the two files
    import (token helpers, password hasher, mailer, ORM model) either taken
    as an interface or modelled, and the properties of the flow proved over
    the embedding. *)

From stdpp Require Import base option list strings numbers pretty.

Local Open Scope string_scope.
Local Open Scope list_scope.

(** ** JavaScript values and thrown objects *)

(** The values that reach a [code] or [message] position of a response. *)
Inductive JsVal :=
  | VUndefined
  | VBool (b : bool)
  | VNum (n : Z)
  | VStr (s : string).

(** JavaScript truthiness, as used by [a || b]. *)
Definition truthy (v : JsVal) : bool :=
  match v with
  | VUndefined => false
  | VBool b => b
  | VNum n => negb (n =? 0)%Z
  | VStr s => negb (String.eqb s "")
  end.

(** [a || b] *)
Definition js_or (a b : JsVal) : JsVal := if truthy a then a else b.

(** [v === 'text'] *)
Definition strict_eq_str (v : JsVal) (s : string) : bool :=
  match v with
  | VStr t => String.eqb t s
  | _ => false
  end.

(** [`${v}`] *)
Definition to_template (v : JsVal) : string :=
  match v with
  | VUndefined => "undefined"
  | VBool true => "true"
  | VBool false => "false"
  | VNum n => pretty n
  | VStr s => s
  end.

(** Objects that the flow throws. [JsError m] is [new Error(m)].

    Modelled from the spec: the class [ApiError] of [utils/] is not under
    src/; the spec gives it as [ApiError{status,message}], an error that
    carries the HTTP status and the message it is constructed with, which is
    also how the handlers read it ([err.status], [err.message]). *)
Inductive Thrown :=
  | JsError (message : string)
  | ApiError (status : Z) (message : JsVal).

(** [e.message] *)
Definition err_message (e : Thrown) : JsVal :=
  match e with
  | JsError m => VStr m
  | ApiError _ m => m
  end.

(** [e.status] *)
Definition err_status (e : Thrown) : JsVal :=
  match e with
  | JsError _ => VUndefined
  | ApiError s _ => VNum s
  end.

(** [e.statusCode]: neither kind of object has such a property. *)
Definition err_statusCode (e : Thrown) : JsVal := VUndefined.

(** ** Data of the flow *)

(** The plain object of a request body, and of the argument of
    [UserService.create]: the profile fields of [test/dummies.js] and the
    plaintext password. *)
Record UserObject := {
  o_firstName : string;
  o_lastName : string;
  o_email : string;
  o_password : string;
  o_role : string;
  o_others : list (string * string)
}.

(** [user.password = h] *)
Definition set_o_password (h : string) (o : UserObject) : UserObject :=
  {| o_firstName := o_firstName o; o_lastName := o_lastName o;
     o_email := o_email o; o_password := h; o_role := o_role o;
     o_others := o_others o |}.

(** A row of the Users table ([dataValues]); [token] is the property that
    the controllers add to the object they got back, it is not a column. *)
Record User := {
  id : Z;
  firstName : string;
  lastName : string;
  email : string;
  password : string;
  role : string;
  isVerified : bool;
  others : list (string * string);
  token : option string
}.

(** [user.token = t] *)
Definition set_token (t : string) (u : User) : User :=
  {| id := id u; firstName := firstName u; lastName := lastName u;
     email := email u; password := password u; role := role u;
     isVerified := isVerified u; others := others u; token := Some t |}.

(** The fields that [User.update] is called with in this flow. *)
Record UserPatch := {
  patch_isVerified : option bool;
  patch_password : option string
}.

Definition apply_patch (p : UserPatch) (u : User) : User :=
  {| id := id u; firstName := firstName u; lastName := lastName u;
     email := email u;
     password := default (password u) (patch_password p);
     role := role u;
     isVerified := default (isVerified u) (patch_isVerified p);
     others := others u; token := token u |}.

(** The payload of a token. *)
Record Claims := {
  claim_id : Z;
  claim_email : option string;
  claim_role : option string;
  claim_firstName : option string
}.

(** Modelled from the spec: the class [UserResponse] of [utils/] is not under
    src/; the spec gives it as the projection of a user record to a
    client-safe representation, which strips the password hash and includes
    the token when present. *)
Record UserResponseT := {
  r_id : Z;
  r_firstName : string;
  r_lastName : string;
  r_email : string;
  r_role : string;
  r_isVerified : bool;
  r_others : list (string * string);
  r_token : option string
}.

Definition UserResponse (u : User) : UserResponseT :=
  {| r_id := id u; r_firstName := firstName u; r_lastName := lastName u;
     r_email := email u; r_role := role u; r_isVerified := isVerified u;
     r_others := others u; r_token := token u |}.

(** Mail handed to the provider, or to [sendResetMail]. *)
Inductive Mail :=
  | VerificationMail (to from templateId name verificationLink : string)
  | ResetMail (to firstName resetPasswordLink : string).

(** ** The response object *)

Record CookieOptions := { maxAge : option Z; httpOnly : bool }.

Inductive CookieOp :=
  | SetCookie (name : string) (value : option string) (opts : CookieOptions)
  | ClearCookie (name : string) (opts : CookieOptions).

(** The [data] argument of [successResponse]. *)
Inductive Data :=
  | DText (s : string)
  | DUser (u : UserResponseT)
  | DSignup (u : UserResponseT) (emailSent : bool)
  | DMessage (code : Z) (message : string).

(** The helpers [successResponse] and [errorResponse] of [utils/] are not
    under src/: a reply is recorded as the call that produced it, with the
    arguments the handler passed; an absent argument or property is
    [None], respectively [VUndefined]. *)
Inductive Reply :=
  | successResponse (data : Data) (code : option Z)
  | errorResponse (code : JsVal) (message : JsVal).

Record Res := { cookies : list CookieOp; replies : list Reply }.

Definition fresh_res : Res := {| cookies := []; replies := [] |}.

(** ** Requests *)

(** The identity that the external provider hands over: [emails[i].value]. *)
Record SocialProfile := { emails : list string }.

Record Request := {
  protocol : string;
  host : string;
  body : UserObject;
  query_token : string;
  params_email : string;
  req_cookie_token : option string;
  req_user : SocialProfile
}.

(** ** The state that a handler runs in *)

Record World := {
  heap : list UserObject;   (* plain objects, addressed by reference *)
  users : list User;        (* the Users table, in insertion order *)
  nextId : Z;               (* the table's serial *)
  entropy : nat;            (* salts drawn so far by the hasher *)
  now : Z;                  (* the clock *)
  mailerUp : bool;          (* whether the mail provider accepts a send *)
  outbox : list Mail;       (* calls made to the mail provider *)
  res : Res                 (* the response object of the request *)
}.

Definition set_heap (f : list UserObject → list UserObject) (w : World) :=
  {| heap := f (heap w); users := users w; nextId := nextId w;
     entropy := entropy w; now := now w; mailerUp := mailerUp w;
     outbox := outbox w; res := res w |}.

Definition set_users (f : list User → list User) (w : World) :=
  {| heap := heap w; users := f (users w); nextId := nextId w;
     entropy := entropy w; now := now w; mailerUp := mailerUp w;
     outbox := outbox w; res := res w |}.

Definition set_nextId (f : Z → Z) (w : World) :=
  {| heap := heap w; users := users w; nextId := f (nextId w);
     entropy := entropy w; now := now w; mailerUp := mailerUp w;
     outbox := outbox w; res := res w |}.

Definition set_entropy (f : nat → nat) (w : World) :=
  {| heap := heap w; users := users w; nextId := nextId w;
     entropy := f (entropy w); now := now w; mailerUp := mailerUp w;
     outbox := outbox w; res := res w |}.

Definition set_outbox (f : list Mail → list Mail) (w : World) :=
  {| heap := heap w; users := users w; nextId := nextId w;
     entropy := entropy w; now := now w; mailerUp := mailerUp w;
     outbox := f (outbox w); res := res w |}.

Definition set_res (f : Res → Res) (w : World) :=
  {| heap := heap w; users := users w; nextId := nextId w;
     entropy := entropy w; now := now w; mailerUp := mailerUp w;
     outbox := outbox w; res := f (res w) |}.

(** The environment moves between requests: time passes and the mail
    provider comes and goes. *)
Definition set_env (t : Z) (up : bool) (w : World) :=
  {| heap := heap w; users := users w; nextId := nextId w;
     entropy := entropy w; now := t; mailerUp := up;
     outbox := outbox w; res := res w |}.

(** ** Computations: state and exceptions *)

Inductive Completion (A : Type) :=
  | Normal (a : A)
  | Throw (e : Thrown).
Arguments Normal {A} a.
Arguments Throw {A} e.

Definition Js (A : Type) : Type := World → Completion A * World.

Definition js_ret {A} (a : A) : Js A := λ w, (Normal a, w).

Definition js_bind {A B} (m : Js A) (k : A → Js B) : Js B :=
  λ w, match m w with
       | (Normal a, w') => k a w'
       | (Throw e, w') => (Throw e, w')
       end.

#[global] Instance Js_ret : MRet Js := @js_ret.
#[global] Instance Js_bind : MBind Js := λ A B k m, js_bind m k.

(** [throw e] *)
Definition throw {A} (e : Thrown) : Js A := λ w, (Throw e, w).

(** [try { m } catch (e) { h e }] *)
Definition try_catch {A} (m : Js A) (h : Thrown → Js A) : Js A :=
  λ w, match m w with
       | (Normal a, w') => (Normal a, w')
       | (Throw e, w') => h e w'
       end.

Definition get_world : Js World := λ w, (Normal w, w).
Definition modify (f : World → World) : Js unit := λ w, (Normal (), f w).

(** What a computation leaves behind, and what it completes with. *)
Definition exec {A} (m : Js A) (w : World) : World := (m w).2.
Definition completion {A} (m : Js A) (w : World) : Completion A := (m w).1.

(** ** The helpers that the two files import

    [utils/helpers] (hasher and token helpers), the verification-link builder
    and the configured sender address are not under src/: the flow is
    embedded over any implementation of them. The hasher is salted, so it
    takes the number of salts drawn so far; the token helpers read the
    clock. [verifyToken] either returns the claims or throws. *)
Class Helpers := {
  hashPassword : nat → string → string;
  comparePassword : string → string → bool;
  generateToken : Z → Claims → option string → string;
  verifyToken : Z → string → Completion Claims;
  generateVerificationLink : Z → Request → Claims → string;
  ADMIN_EMAIL : string
}.

(** ** Plain objects on the heap *)

(** [{ ...o }], and any other object literal: a new object. *)
Definition alloc (o : UserObject) : Js nat :=
  λ w, (Normal (length (heap w)), set_heap (λ h, h ++ [o]) w).

(** Reading the object behind a reference. *)
Definition deref (l : nat) : Js UserObject :=
  λ w, match heap w !! l with
       | Some o => (Normal o, w)
       | None => (Throw (JsError "Cannot read property 'password' of undefined"), w)
       end.

(** [l.password = h], on the object itself. *)
Definition assign_password (l : nat) (h : string) : Js unit :=
  modify (set_heap (alter (set_o_password h) l)).

(** ** The ORM model [db.User]

    Modelled from the spec: the model [User] of [models/] is not under src/.
    The spec gives the store as [create(user)→user], [findOne(email)→user|null]
    and an update that reports the affected-row count, with a unique email;
    a record is created unverified. *)
Module UserModel.

(** The first row with the given email. *)
Definition by_email (e : string) (rows : list User) : option User :=
  List.find (λ u, String.eqb (email u) e) rows.

Definition findOne (where_email : string) : Js (option User) :=
  λ w, (Normal (by_email where_email (users w)), w).

(** [User.update(fields, { where, returning: true })]: the count of the
    rows that matched, and those rows as updated. *)
Definition update (fields : UserPatch) (where_ : User → bool) : Js (Z * list User) :=
  λ w, let rows := map (apply_patch fields) (List.filter where_ (users w)) in
       (Normal (Z.of_nat (length rows), rows),
        set_users (map (λ u, if where_ u then apply_patch fields u else u)) w).

Definition new_row (o : UserObject) (i : Z) : User :=
  {| id := i; firstName := o_firstName o; lastName := o_lastName o;
     email := o_email o; password := o_password o; role := o_role o;
     isVerified := false; others := o_others o; token := None |}.

Definition create (o : UserObject) : Js User :=
  λ w, if existsb (λ u, String.eqb (email u) (o_email o)) (users w)
       then (Throw (JsError "Validation error"), w)
       else (Normal (new_row o (nextId w)),
             set_nextId Z.succ (set_users (λ us, us ++ [new_row o (nextId w)]) w)).

End UserModel.

(** ** [src/services/UserService.js] *)
Module UserService.
Section WithHelpers.
Context `{Helpers}.

(** [hashPassword(p)], drawing a salt. *)
Definition hash (p : string) : Js string :=
  λ w, (Normal (hashPassword (entropy w) p), set_entropy S w).

(** [create(user)]: [user] is a reference to the caller's object. *)
Definition create (user : nat) : Js User :=
  o ← deref user;
  h ← hash (o_password o);
  assign_password user h;;
  o' ← deref user;
  UserModel.create o'.

(** [updateById(userData, id)]; the result is the first returned row. *)
Definition updateById (userData : UserPatch) (i : Z) : Js (option User) :=
  '(rowaffected, rows) ← UserModel.update userData (λ u, (id u =? i)%Z);
  if (rowaffected =? 0)%Z then throw (JsError "Not Found")
  else mret (head rows).

Definition find (e : string) : Js (option User) := UserModel.findOne e.

(** [updatePassword(password, email)] *)
Definition updatePassword (p e : string) : Js (Z * list User) :=
  hashedPassword ← hash p;
  UserModel.update {| patch_isVerified := None; patch_password := Some hashedPassword |}
                   (λ u, String.eqb (email u) e).

(** [socialLogin(userData)] *)
Definition socialLogin (userData : SocialProfile) : Js User :=
  try_catch
    (e0 ← match emails userData !! 0%nat with
          | Some e => mret e
          | None => throw (JsError "Cannot read property 'value' of undefined")
          end;
     existingUser ← UserModel.findOne e0;
     match existingUser with
     | None => throw (ApiError 403 (VStr "You need to signup to use this feature"))
     | Some u => mret u
     end)
    (λ error, throw (ApiError 500 (err_message error))).

Definition userLogin (e : string) : Js (option User) := UserModel.findOne e.

End WithHelpers.
End UserService.

(** ** The class [FacilityService]

    Of the class, [sortFacilityAmenities] is a function of its arguments.
    An amenity is named by its id; [amenities] may be absent from the
    facility data, which is [None]. *)
Module FacilityService.

Record AmenityFacility := { amenityId : Z; facilityId : Z }.

(** [amenities ? amenities.map((item) => ({ amenityId: item, facilityId: id })) : []];
    an array is truthy also when it is empty. *)
Definition sortFacilityAmenities (amenities : option (list Z)) (i : Z) : list AmenityFacility :=
  match amenities with
  | Some items => map (λ item, {| amenityId := item; facilityId := i |}) items
  | None => []
  end.

End FacilityService.

(** ** The mailer *)
Module Mailer.
Section WithHelpers.
Context `{Helpers}.

(** [sendgrid.send(mail)]: the provider is outside the repository; the call
    is logged and rejects when the provider is down. *)
Definition sendgrid_send (mail : Mail) : Js unit :=
  λ w, if mailerUp w
       then (Normal (), set_outbox (λ o, o ++ [mail]) w)
       else (Throw (JsError "Bad Request"), set_outbox (λ o, o ++ [mail]) w).

(** [sendVerificationEmail(req, { id, email, firstName, role })] *)
Definition sendVerificationEmail (req : Request) (options : UserResponseT) : Js bool :=
  w ← get_world;
  let verificationLink :=
    generateVerificationLink (now w) req
      {| claim_id := r_id options; claim_email := None;
         claim_role := Some (r_role options);
         claim_firstName := Some (r_firstName options) |} in
  let mail := VerificationMail (r_email options) ADMIN_EMAIL
                "d-a1922b184048430088fd7d0bf446cd06"
                (r_firstName options) verificationLink in
  try_catch (sendgrid_send mail;; mret true) (λ _, mret false).

(** Modelled from the spec: [sendResetMail] is not under src/; the spec
    gives it as [sendResetMail({email, firstName, resetPasswordLink}) →
    boolean], which never throws and signals delivery by its result. *)
Definition sendResetMail (to first link : string) : Js bool :=
  try_catch (sendgrid_send (ResetMail to first link);; mret true) (λ _, mret false).

End WithHelpers.
End Mailer.

(** ** Effects on the response object *)

(** [res.cookie(name, value, opts)] and [res.clearCookie(name, opts)] *)
Definition res_cookie (c : CookieOp) : Js unit :=
modify (set_res (λ r, {| cookies := cookies r ++ [c]; replies := replies r |})).

(** [successResponse(res, ...)] and [errorResponse(res, ...)] *)
Definition respond (r : Reply) : Js unit :=
modify (set_res (λ r0, {| cookies := cookies r0; replies := replies r0 ++ [r] |})).

(** ** The class [AuthController] *)
Module AuthController.
Section WithHelpers.
Context `{Helpers}.

(** [generateToken(claims, ttl)] and [verifyToken(token)] at the clock. *)
Definition issue (c : Claims) (ttl : option string) : Js string :=
  λ w, (Normal (generateToken (now w) c ttl), w).

Definition verify (t : string) : Js Claims :=
  λ w, (verifyToken (now w) t, w).

(** [{ email: user.email, id: user.id, role: user.role }] *)
Definition session_claims (u : User) : Claims :=
  {| claim_id := id u; claim_email := Some (email u);
     claim_role := Some (role u); claim_firstName := None |}.

Definition day_cookie (t : option string) : CookieOp :=
  SetCookie "token" t {| maxAge := Some 86400000%Z; httpOnly := true |}.

(** [new UserResponse(user)] of what [updateById] returned. *)
Definition shape (u : option User) : Js UserResponseT :=
  match u with
  | Some u => mret (UserResponse u)
  | None => throw (JsError "Cannot read property 'id' of undefined")
  end.

Definition signUp (req : Request) : Js unit :=
  try_catch
    (copy ← alloc (body req);
     user ← UserService.create copy;
     t ← issue (session_claims user) None;
     let user := set_token t user in
     let userResponse := UserResponse user in
     isSent ← Mailer.sendVerificationEmail req userResponse;
     res_cookie (day_cookie (r_token userResponse));;
     respond (successResponse (DSignup userResponse isSent) (Some 201%Z)))
    (λ error, respond (errorResponse VUndefined VUndefined)).

Definition verifyEmail (req : Request) : Js unit :=
  try_catch
    (decoded ← verify (query_token req);
     user ← UserService.updateById
              {| patch_isVerified := Some true; patch_password := None |}
              (claim_id decoded);
     userResponse ← shape user;
     respond (successResponse (DUser userResponse) None))
    (λ e,
       if strict_eq_str (err_message e) "Invalid Token"
       then respond (errorResponse (VNum 400) (VStr "Invalid token, verification unsuccessful"))
       else if strict_eq_str (err_message e) "Not Found"
       then respond (errorResponse (VNum 400) (VStr "no user found to verify"))
       else respond (errorResponse VUndefined VUndefined)).

(** [`${req.protocol}://${req.get('host')}/api/auth/reset-password?token=${token}`] *)
Definition reset_link (req : Request) (t : string) : string :=
  protocol req +:+ "://" +:+ host req +:+ "/api/auth/reset-password?token=" +:+ t.

Definition sendResetPasswordEmail (req : Request) : Js unit :=
  try_catch
    (let e := o_email (body req) in
     user ← UserService.find e;
     match user with
     | None => throw (ApiError 404 (VStr "User account does not exist"))
     | Some user =>
         t ← issue {| claim_id := id user; claim_email := Some e;
                      claim_role := None;
                      claim_firstName := Some (firstName user) |} (Some "24h");
         response ← Mailer.sendResetMail e (firstName user) (reset_link req t);
         if (response : bool)
         then respond (successResponse (DText "Password reset link sent successfully") (Some 200%Z))
         else throw (ApiError 404 (VBool response))
     end)
    (λ err,
       let status := js_or (err_status err) (VNum 500) in
       respond (errorResponse status (err_message err))).

Definition resetPassword (req : Request) : Js unit :=
  try_catch
    (let p := o_password (body req) in
     let e := params_email req in
     '(updatedPassword, _) ← UserService.updatePassword p e;
     if (updatedPassword =? 1)%Z
     then respond (successResponse (DText "Password has been changed successfully") (Some 200%Z))
     else throw (ApiError 404 (VStr "User account does not exist")))
    (λ err,
       let status := js_or (err_status err) (VNum 500) in
       respond (errorResponse status (err_message err))).

Definition verifyPasswordResetLink (req : Request) : Js unit :=
  try_catch
    (decoded ← verify (query_token req);
     let e := match claim_email decoded with
              | Some e => e
              | None => "undefined"
              end in
     let url := protocol req +:+ "://" +:+ host req +:+ "/api/auth/password/reset/" +:+ e in
     respond (successResponse (DText ("Goto " +:+ url +:+ " using POST Method")) (Some 200%Z)))
    (λ err,
       let status := js_or (err_status err) (VNum 500) in
       respond (errorResponse status
                  (VStr ("Verification unsuccessful, " +:+ to_template (err_message err))))).

Definition loginUser (req : Request) : Js unit :=
  try_catch
    (let e := o_email (body req) in
     let p := o_password (body req) in
     user ← UserService.userLogin e;
     match user with
     | None => respond (errorResponse (VNum 401) (VStr "Invalid login details"))
     | Some user =>
         if negb (comparePassword p (password user))
         then respond (errorResponse (VNum 401) (VStr "Invalid login details"))
         else
           t ← issue (session_claims user) None;
           let user := set_token t user in
           let loginResponse := UserResponse user in
           res_cookie (day_cookie (r_token loginResponse));;
           respond (successResponse (DUser loginResponse) None)
     end)
    (λ error, respond (errorResponse VUndefined VUndefined)).

Definition socialLogin (req : Request) : Js unit :=
  try_catch
    (user ← UserService.socialLogin (req_user req);
     t ← issue (session_claims user) None;
     let user := set_token t user in
     let userResponse := UserResponse user in
     respond (successResponse (DUser userResponse) (Some 200%Z)))
    (λ error, respond (errorResponse (err_statusCode error) (err_message error))).

Definition logout (req : Request) : Js unit :=
  try_catch
    (res_cookie (ClearCookie "token" {| maxAge := None; httpOnly := true |});;
     respond (successResponse (DMessage 200 "You have been successfully logged out") None))
    (λ error, respond (errorResponse VUndefined (err_message error))).

End WithHelpers.
End AuthController.

(** ** Serving a request *)

(** The operations that the router of the flow dispatches to. *)
Inductive Operation :=
| OpSignUp | OpVerifyEmail | OpSendResetPasswordEmail | OpResetPassword
| OpVerifyPasswordResetLink | OpLoginUser | OpSocialLogin | OpLogout.

Section Serving.
Context `{Helpers}.

Definition handler (op : Operation) : Request → Js unit :=
  match op with
  | OpSignUp => AuthController.signUp
  | OpVerifyEmail => AuthController.verifyEmail
  | OpSendResetPasswordEmail => AuthController.sendResetPasswordEmail
  | OpResetPassword => AuthController.resetPassword
  | OpVerifyPasswordResetLink => AuthController.verifyPasswordResetLink
  | OpLoginUser => AuthController.loginUser
  | OpSocialLogin => AuthController.socialLogin
  | OpLogout => AuthController.logout
  end.

(** A request is served on a response object of its own. *)
Definition serve (op : Operation) (req : Request) (w : World) : World :=
  exec (handler op req) (set_res (λ _, fresh_res) w).

(** Everything that happens to the state: a request is served, or the
    environment moves. *)
Inductive Event :=
  | Served (op : Operation) (req : Request)
  | Environment (t : Z) (up : bool).

Definition step (w : World) (ev : Event) : World :=
  match ev with
  | Served op req => serve op req w
  | Environment t up => set_env t up w
  end.

Definition run (w : World) (evs : list Event) : World := foldl step w evs.

End Serving.

(** ** The token codec

  Modelled from the spec: [generateToken] and [verifyToken] of
  [utils/helpers] are not under src/. The spec gives the codec as
  [issue(claims, ttl)], which embeds the claims and an expiry in a signed
  token, and [verify(token)], which returns the claims if the signature is
  valid and the token has not expired; a bad signature and an expired
  token are told apart inside the codec and both reach the caller as
  [Invalid Token]. The token is modelled by its content; times and
  lifetimes are in seconds. *)
Module TokenCodec.

Record Payload := { claims : Claims; iat : Z; exp : Z }.

Record Token := { payload : Payload; signature : string }.

Inductive Failure := BadSignature | Expired.

Section Codec.
  (** The keyed signature of a payload, and the process-wide secret. *)
Variable mac : string → Payload → string.
Variable secret : string.

Definition issue (clock : Z) (c : Claims) (ttl : Z) : Token :=
    let p := {| claims := c; iat := clock; exp := (clock + ttl)%Z |} in
    {| payload := p; signature := mac secret p |}.

Definition check (clock : Z) (t : Token) : Failure + Payload :=
    if negb (String.eqb (signature t) (mac secret (payload t))) then inl BadSignature
    else if (exp (payload t) <=? clock)%Z then inl Expired
    else inr (payload t).

Definition verify (clock : Z) (t : Token) : Completion Claims :=
    match check clock t with
    | inr p => Normal (claims p)
    | inl _ => Throw (JsError "Invalid Token")
    end.
End Codec.

End TokenCodec.

(** ** A sample deployment, to run the flow on *)
Module Sample.

Definition claims_of (i : Z) : Claims :=
  {| claim_id := i; claim_email := None; claim_role := None;
     claim_firstName := None |}.

(** Helpers that are simple enough to evaluate: the hash marks the
    plaintext, a token names the id it was issued for, and three tokens
    verify to something. *)
Definition helpers : Helpers := {|
  hashPassword := λ n p, "$2b$" +:+ p;
  comparePassword := λ p h, String.eqb h ("$2b$" +:+ p);
  generateToken := λ clock c ttl, "jwt." +:+ pretty (claim_id c);
  verifyToken := λ clock t,
    if String.eqb t "jwt.1" then Normal (claims_of 1)
    else if String.eqb t "jwt.9" then Normal (claims_of 9)
    else if String.eqb t "jwt.broken" then Throw (JsError "secretOrPrivateKey must have a value")
    else Throw (JsError "Invalid Token");
  generateVerificationLink := λ clock req c,
    protocol req +:+ "://" +:+ host req +:+ "/api/auth/verify?token=jwt." +:+ pretty (claim_id c);
  ADMIN_EMAIL := "admin@jubilee.test"
|}.

Definition king : UserObject :=
  {| o_firstName := "King"; o_lastName := "David";
     o_email := "jubilee.barefootnomad@gmail.com";
     o_password := "Elijahayodele12"; o_role := "user";
     o_others := [("country", "Nigeria"); ("companyName", "Andela")] |}.

Definition king_row : User :=
  {| id := 1; firstName := "King"; lastName := "David";
     email := "jubilee.barefootnomad@gmail.com";
     password := "$2b$Elijahayodele12"; role := "user";
     isVerified := false; others := []; token := None |}.

Definition request : Request :=
  {| protocol := "https"; host := "jubilee.test"; body := king;
     query_token := "jwt.1"; params_email := "jubilee.barefootnomad@gmail.com";
     req_cookie_token := None;
     req_user := {| emails := ["jubilee.barefootnomad@gmail.com"] |} |}.

Definition with_token (t : string) (r : Request) : Request :=
  {| protocol := protocol r; host := host r; body := body r;
     query_token := t; params_email := params_email r;
     req_cookie_token := req_cookie_token r; req_user := req_user r |}.

Definition with_password (p : string) (r : Request) : Request :=
  {| protocol := protocol r; host := host r;
     body := set_o_password p (body r);
     query_token := query_token r; params_email := params_email r;
     req_cookie_token := req_cookie_token r; req_user := req_user r |}.

(** An empty store, and one that holds the sample user. *)
Definition empty : World :=
  {| heap := []; users := []; nextId := 1; entropy := 0; now := 1573000000;
     mailerUp := true; outbox := []; res := fresh_res |}.

Definition seeded : World := set_nextId Z.succ (set_users (λ _, [king_row]) empty).

(** The same stores with the mail provider down. *)
Definition empty_offline : World := set_env 1573000000 false empty.
Definition seeded_offline : World := set_env 1573000000 false seeded.

(** A state in which a caller holds the sample object behind reference 0. *)
Definition holding : World := set_heap (λ _, [king]) empty.

(** A deployment whose token helpers accept nothing and issue something
  else; the hasher is the same. *)
Definition strict_helpers : Helpers := {|
hashPassword := λ n p, "$2b$" +:+ p;
comparePassword := λ p h, String.eqb h ("$2b$" +:+ p);
generateToken := λ clock c ttl, "none";
verifyToken := λ clock t, Throw (JsError "Invalid Token");
generateVerificationLink := λ clock req c, "none";
ADMIN_EMAIL := "admin@jubilee.test"
|}.

(** A signature for the token codec: the secret and the expiry, spelled out. *)
Definition mac (secret : string) (p : TokenCodec.Payload) : string :=
secret +:+ "." +:+ pretty (TokenCodec.exp p).

(** A run of the flow: signup, a failed login, the verification, a password
  reset and a second verification. *)
Definition session : list Event :=
[Served OpSignUp request;
 Served OpLoginUser (with_password "guess" request);
 Environment 1573000600 false;
 Served OpVerifyEmail request;
 Served OpResetPassword (with_password "Another12345" request);
 Served OpVerifyEmail request].

(** A deployment whose tokens are the email they were issued for. *)
Definition echo_helpers : Helpers := {|
  hashPassword := λ n p, "$2b$" +:+ p;
  comparePassword := λ p h, String.eqb h ("$2b$" +:+ p);
  generateToken := λ clock c ttl, default "" (claim_email c);
  verifyToken := λ clock t,
    Normal {| claim_id := 0; claim_email := Some t; claim_role := None;
              claim_firstName := None |};
  generateVerificationLink := λ clock req c, "none";
  ADMIN_EMAIL := "admin@jubilee.test"
|}.

(** The sample user after a reset to another password. *)
Definition king_row_reset : User :=
  {| id := 1; firstName := "King"; lastName := "David";
     email := "jubilee.barefootnomad@gmail.com";
     password := "$2b$Another12345"; role := "user";
     isVerified := false; others := []; token := None |}.

End Sample.

(** * The vocabulary of the properties *)
Section Vocabulary.
Context `{Helpers}.

(** The response of a rejected login. *)
Definition invalid_login : Res :=
  {| cookies := [];
     replies := [errorResponse (VNum 401) (VStr "Invalid login details")] |}.

(** The rows that a password update for [e] matches. *)
Definition matching (e : string) (w : World) : list User :=
  List.filter (λ u, String.eqb (email u) e) (users w).

(** The two replies of a password reset. *)
Definition password_changed : Reply :=
  successResponse (DText "Password has been changed successfully") (Some 200%Z).

Definition no_account : Reply :=
  errorResponse (VNum 404) (VStr "User account does not exist").

(** A response that consists of one error reply. *)
Definition error_only (code message : JsVal) : Res :=
  {| cookies := []; replies := [errorResponse code message] |}.

(** The mail that [sendVerificationEmail] hands to the provider. *)
Definition verification_mail (now_ : Z) (req : Request) (options : UserResponseT) : Mail :=
  VerificationMail (r_email options) ADMIN_EMAIL "d-a1922b184048430088fd7d0bf446cd06"
    (r_firstName options)
    (generateVerificationLink now_ req
       {| claim_id := r_id options; claim_email := None;
          claim_role := Some (r_role options);
          claim_firstName := Some (r_firstName options) |}).

(** [{ firstName, id, email }] *)
Definition reset_claims (user : User) (e : string) : Claims :=
  {| claim_id := id user; claim_email := Some e; claim_role := None;
     claim_firstName := Some (firstName user) |}.

(** A computation that leaves the table alone. *)
Definition keeps_users {A} (m : Js A) : Prop := ∀ w, users (exec m w) = users w.

(** [{ isVerified: true }] *)
Definition mark_verified : UserPatch :=
  {| patch_isVerified := Some true; patch_password := None |}.

(** The ways in which an event changes the table. *)
Inductive table_change (ev : Event) (rows : list User) : list User → Prop :=
  | tc_unchanged :
      table_change ev rows rows
  | tc_created req row :
      ev = Served OpSignUp req → isVerified row = false →
      table_change ev rows (rows ++ [row])
  | tc_verified req i :
      ev = Served OpVerifyEmail req →
      table_change ev rows
        (map (λ u, if (id u =? i)%Z then apply_patch mark_verified u else u) rows)
  | tc_rehashed req e h :
      ev = Served OpResetPassword req →
      table_change ev rows
        (map (λ u, if String.eqb (email u) e
                   then apply_patch {| patch_isVerified := None; patch_password := Some h |} u
                   else u) rows).

(** The flag of the record in row [i], if there is such a record. Rows are
    never removed or reordered, so a row is a record for good. *)
Definition flag (w : World) (i : nat) : option bool := isVerified <$> users w !! i.

(** Whether a flag went over to true between two states. *)
Definition became_verified (before after : option bool) : bool :=
  match before, after with
  | Some true, _ => false
  | _, Some true => true
  | _, _ => false
  end.

(** The number of events of a run at which the record in row [i] went over
    to verified. *)
Fixpoint verifications (i : nat) (w : World) (evs : list Event) : nat :=
  match evs with
  | [] => 0
  | ev :: evs' =>
      (if became_verified (flag w i) (flag (step w ev) i) then 1 else 0)
      + verifications i (step w ev) evs'
  end.

(** A computation that leaves one component [π] of the state alone. *)
Definition keeps {A B} (π : World → B) (m : Js A) : Prop :=
  ∀ w, π (exec m w) = π w.

(** What stays of a row whatever the flow does to it: everything but the
    password hash and the verification flag. *)
Definition same_identity (u u' : User) : Prop :=
  id u' = id u ∧ email u' = email u ∧ firstName u' = firstName u
  ∧ lastName u' = lastName u ∧ role u' = role u ∧ others u' = others u.

(** The response of a login that went through with token [t]. *)
Definition logged_in (t : string) (shaped : UserResponseT) : Res :=
  {| cookies := [SetCookie "token" (Some t) {| maxAge := Some 86400000%Z; httpOnly := true |}];
     replies := [successResponse (DUser shaped) None] |}.

(** A request with the given email and password in its body. *)
Definition credentials (e p : string) (req : Request) : Prop :=
  o_email (body req) = e ∧ o_password (body req) = p.

(** [`${req.protocol}://${req.get('host')}/api/auth/password/reset/${email}`] *)
Definition reset_target (req : Request) (e : string) : string :=
  protocol req +:+ "://" +:+ host req +:+ "/api/auth/password/reset/" +:+ e.

(** The reply that points the client to the reset endpoint. *)
Definition goto (req : Request) (e : string) : Reply :=
  successResponse (DText ("Goto " +:+ reset_target req e +:+ " using POST Method"))
    (Some 200%Z).

End Vocabulary.

(** * Properties of the flow *)

(** Running a computation: the monad's operations are functions of the
    state, so a run is unfolded and evaluated. *)
Ltac js_unfold :=
  unfold mbind, Js_bind, js_bind, mret, Js_ret, js_ret, try_catch, throw,
    modify, get_world, exec, completion in *.

Ltac js_run := js_unfold; cbn [fst snd] in *.

(** Two states with the same components are the same state. *)
Lemma world_eq (w1 w2 : World) :
  heap w1 = heap w2 → users w1 = users w2 → nextId w1 = nextId w2 →
  entropy w1 = entropy w2 → now w1 = now w2 → mailerUp w1 = mailerUp w2 →
  outbox w1 = outbox w2 → res w1 = res w2 → w1 = w2.
Proof. destruct w1, w2; cbn; intros; subst; reflexivity. Qed.

Ltac world_simpl :=
  cbn [heap users nextId entropy now mailerUp outbox res
       set_heap set_users set_nextId set_entropy set_outbox set_res set_env
       cookies replies fresh_res fst snd] in *.

Ltac world_ext := apply world_eq; world_simpl.

(** ** Social login *)
Section SocialLogin.
Context `{Helpers}.

(** The service's own [catch] receives the 403 that its [try] throws, and
    rethrows it as a 500. *)
Lemma service_socialLogin_unknown (p : SocialProfile) (e : string) (w : World) :
  emails p !! 0%nat = Some e →
  UserModel.by_email e (users w) = None →
  UserService.socialLogin p w =
    (Throw (ApiError 500 (VStr "You need to signup to use this feature")), w).
Proof.
  intros He Hnone. unfold UserService.socialLogin, UserModel.findOne. js_run.
  rewrite He. cbn. rewrite Hnone. reflexivity.
Qed.

Lemma service_socialLogin_known (p : SocialProfile) (e : string) (u : User) (w : World) :
  emails p !! 0%nat = Some e →
  UserModel.by_email e (users w) = Some u →
  UserService.socialLogin p w = (Normal u, w).
Proof.
  intros He Hu. unfold UserService.socialLogin, UserModel.findOne. js_run.
  rewrite He. cbn. rewrite Hu. reflexivity.
Qed.

(** For an identity without a local account the controller replies with the
    signup prompt and no status of its own: the error it caught carries its
    status under [status], and the controller reads [statusCode]. *)
Lemma socialLogin_unknown (req : Request) (e : string) (w : World) :
  emails (req_user req) !! 0%nat = Some e →
  UserModel.by_email e (users w) = None →
  serve OpSocialLogin req w =
    set_res (λ _, {| cookies := [];
                     replies := [errorResponse VUndefined
                                   (VStr "You need to signup to use this feature")] |}) w.
Proof.
  intros He Hnone. unfold serve, handler, AuthController.socialLogin. js_run.
  rewrite (service_socialLogin_unknown _ e) by done.
  reflexivity.
Qed.

(** For an identity with a local account the controller replies 200 with the
    shaped user, which carries the token issued for it. *)
Lemma socialLogin_known (req : Request) (e : string) (u : User) (w : World) :
  emails (req_user req) !! 0%nat = Some e →
  UserModel.by_email e (users w) = Some u →
  let t := generateToken (now w) (AuthController.session_claims u) None in
  serve OpSocialLogin req w =
    set_res (λ _, {| cookies := [];
                     replies := [successResponse (DUser (UserResponse (set_token t u)))
                                   (Some 200%Z)] |}) w.
Proof.
  intros He Hu. unfold serve, handler, AuthController.socialLogin. js_run.
  rewrite (service_socialLogin_known _ e u) by done.
  reflexivity.
Qed.

End SocialLogin.

(** ** Login *)
Section Login.
Context `{Helpers}.

Lemma loginUser_no_user (req : Request) (w : World) :
  UserModel.by_email (o_email (body req)) (users w) = None →
  serve OpLoginUser req w = set_res (λ _, invalid_login) w.
Proof.
  intros Hnone. unfold serve, handler, AuthController.loginUser,
    UserService.userLogin, UserModel.findOne. js_run. cbn [users set_res].
  rewrite Hnone. reflexivity.
Qed.

Lemma loginUser_wrong_password (req : Request) (u : User) (w : World) :
  UserModel.by_email (o_email (body req)) (users w) = Some u →
  comparePassword (o_password (body req)) (password u) = false →
  serve OpLoginUser req w = set_res (λ _, invalid_login) w.
Proof.
  intros Hu Hcmp. unfold serve, handler, AuthController.loginUser,
    UserService.userLogin, UserModel.findOne. js_run. cbn [users set_res].
  rewrite Hu, Hcmp. reflexivity.
Qed.

Lemma loginUser_match (req : Request) (u : User) (w : World) :
  UserModel.by_email (o_email (body req)) (users w) = Some u →
  comparePassword (o_password (body req)) (password u) = true →
  let t := generateToken (now w) (AuthController.session_claims u) None in
  serve OpLoginUser req w =
    set_res (λ _, {| cookies := [AuthController.day_cookie (Some t)];
                     replies := [successResponse (DUser (UserResponse (set_token t u))) None] |}) w.
Proof.
  intros Hu Hcmp. unfold serve, handler, AuthController.loginUser,
    UserService.userLogin, UserModel.findOne. js_run. cbn [users set_res].
  rewrite Hu, Hcmp. reflexivity.
Qed.

(** C2. A login for an email that no user has, and a login for an existing
    user with a password that does not match the stored hash, leave the same
    response behind: no cookie, and the one error reply with status 401 and
    message "Invalid login details". Neither touches anything but the
    response, so the two causes cannot be told apart. *)
Theorem login_failures_indistinguishable
    (req1 req2 : Request) (w1 w2 : World) (u : User) :
  UserModel.by_email (o_email (body req1)) (users w1) = None →
  UserModel.by_email (o_email (body req2)) (users w2) = Some u →
  comparePassword (o_password (body req2)) (password u) = false →
  res (serve OpLoginUser req1 w1) = res (serve OpLoginUser req2 w2)
  ∧ res (serve OpLoginUser req1 w1) = invalid_login
  ∧ serve OpLoginUser req1 w1 = set_res (λ _, invalid_login) w1
  ∧ serve OpLoginUser req2 w2 = set_res (λ _, invalid_login) w2.
Proof.
  intros Hnone Hu Hcmp.
  rewrite (loginUser_no_user req1 w1 Hnone).
  rewrite (loginUser_wrong_password req2 u w2 Hu Hcmp).
  repeat split.
Qed.

End Login.

(** ** Password reset *)
Section ResetPassword.
Context `{Helpers}.

(** What the accessor reports: the hash is computed, the rows of that email
    get it, and their count comes back. *)
Lemma updatePassword_reports (p e : string) (w : World) :
  let h := hashPassword (entropy w) p in
  let fields := {| patch_isVerified := None; patch_password := Some h |} in
  UserService.updatePassword p e w =
    (Normal (Z.of_nat (length (matching e w)), map (apply_patch fields) (matching e w)),
     set_users (map (λ u, if String.eqb (email u) e then apply_patch fields u else u))
       (set_entropy S w)).
Proof.
  unfold UserService.updatePassword, UserService.hash, UserModel.update, matching.
  js_run. cbn. rewrite length_map. reflexivity.
Qed.

(** The handler in terms of the reported count. *)
Lemma resetPassword_by_count (req : Request) (w : World) (n : Z) (rows : list User) :
  completion (UserService.updatePassword (o_password (body req)) (params_email req)) w =
    Normal (n, rows) →
  serve OpResetPassword req w =
    set_res (λ _, {| cookies := [];
                     replies := [if (n =? 1)%Z then password_changed else no_account] |})
      (exec (UserService.updatePassword (o_password (body req)) (params_email req)) w).
Proof.
  unfold completion, exec. rewrite updatePassword_reports. cbn [fst snd].
  intros [= <- _].
  unfold serve, handler, AuthController.resetPassword, exec.
  unfold try_catch, mbind, Js_bind, js_bind.
  rewrite updatePassword_reports. cbn [fst snd].
  change (matching (params_email req) (set_res _ w)) with (matching (params_email req) w).
  destruct (Z.of_nat _ =? 1)%Z; reflexivity.
Qed.

(** C5. When the password-update accessor reports one affected row, the
    reset replies 200 with "Password has been changed successfully"; when it
    reports none, the reset replies with status 404 and "User account does
    not exist". *)
Theorem resetPassword_row_count (req : Request) (w : World) (rows : list User) :
  (completion (UserService.updatePassword (o_password (body req)) (params_email req)) w =
     Normal (1%Z, rows) →
   replies (res (serve OpResetPassword req w)) =
     [successResponse (DText "Password has been changed successfully") (Some 200%Z)])
  ∧
  (completion (UserService.updatePassword (o_password (body req)) (params_email req)) w =
     Normal (0%Z, rows) →
   replies (res (serve OpResetPassword req w)) =
     [errorResponse (VNum 404) (VStr "User account does not exist")]).
Proof.
  split; intros E; rewrite (resetPassword_by_count _ _ _ _ E); reflexivity.
Qed.

End ResetPassword.

Section ResetPasswordOutcome.
Context `{Helpers}.

(** The whole effect of a reset, written out: it reads the path email, the
    body password, the table and the hasher's salt, and nothing else. *)
Lemma resetPassword_outcome (req : Request) (w : World) :
  let e := params_email req in
  let h := hashPassword (entropy w) (o_password (body req)) in
  let fields := {| patch_isVerified := None; patch_password := Some h |} in
  serve OpResetPassword req w =
    set_res (λ _, {| cookies := [];
                     replies := [if (Z.of_nat (length (matching e w)) =? 1)%Z
                                 then password_changed else no_account] |})
      (set_users (map (λ u, if String.eqb (email u) e then apply_patch fields u else u))
         (set_entropy S w)).
Proof.
  unfold serve, handler, AuthController.resetPassword, exec.
  unfold try_catch, mbind, Js_bind, js_bind.
  rewrite updatePassword_reports. cbn [fst snd].
  change (matching (params_email req) (set_res _ w)) with (matching (params_email req) w).
  destruct (Z.of_nat _ =? 1)%Z; reflexivity.
Qed.

End ResetPasswordOutcome.

(** C3. A reset verifies no token. Two submissions with the same path email
    and the same new password have the same outcome on the same state,
    whatever token either of them presents in its query or its cookie, and
    whatever the token helpers of the deployment issue or accept: the state
    left behind, password hashes and response included, is the same. *)
Theorem resetPassword_verifies_no_token
    (H1 H2 : Helpers) (req1 req2 : Request) (w : World) :
  (∀ n p, @hashPassword H1 n p = @hashPassword H2 n p) →
  params_email req1 = params_email req2 →
  o_password (body req1) = o_password (body req2) →
  @serve H1 OpResetPassword req1 w = @serve H2 OpResetPassword req2 w.
Proof.
  intros Hhash He Hp.
  rewrite (@resetPassword_outcome H1), (@resetPassword_outcome H2).
  cbv zeta. rewrite He, Hp, Hhash. reflexivity.
Qed.

(** ** Email verification *)
Section VerifyEmail.
Context `{Helpers}.

Lemma strict_eq_str_false (v : JsVal) (s : string) :
  v ≠ VStr s → strict_eq_str v s = false.
Proof.
  intros Hne. destruct v as [| | |t]; try reflexivity.
  cbn. apply String.eqb_neq. congruence.
Qed.

(** An update that matches no row leaves the table as it is. *)
Lemma update_no_match (f : User → User) (p : User → bool) (rows : list User) :
  List.filter p rows = [] → map (λ u, if p u then f u else u) rows = rows.
Proof.
  induction rows as [|u rows IH]; [reflexivity|].
  cbn. destruct (p u); [discriminate|].
  intros E. rewrite IH by exact E. reflexivity.
Qed.

Lemma updateById_not_found (fields : UserPatch) (i : Z) (w : World) :
  List.filter (λ u, (id u =? i)%Z) (users w) = [] →
  UserService.updateById fields i w = (Throw (JsError "Not Found"), w).
Proof.
  intros Hnone. unfold UserService.updateById, UserModel.update. js_run.
  rewrite Hnone. cbn. unfold set_users. rewrite update_no_match by exact Hnone.
  destruct w; reflexivity.
Qed.

Lemma updateById_found (fields : UserPatch) (i : Z) (w : World) (u : User) (rest : list User) :
  List.filter (λ u, (id u =? i)%Z) (users w) = u :: rest →
  UserService.updateById fields i w =
    (Normal (Some (apply_patch fields u)),
     set_users (map (λ u, if (id u =? i)%Z then apply_patch fields u else u)) w).
Proof.
  intros Hrows. unfold UserService.updateById, UserModel.update. js_run.
  rewrite Hrows. reflexivity.
Qed.

(** C4. The failures of an email verification map as follows: a token whose
    verification throws [Invalid Token] gives status 400 with "Invalid
    token, verification unsuccessful"; a token that verifies to an id that no
    row has gives status 400 with "no user found to verify"; a verification
    that throws anything else gives the generic error reply, which carries
    neither a status nor a message of the error. *)
Theorem verifyEmail_failure_mapping (req : Request) (w : World) :
  (verifyToken (now w) (query_token req) = Throw (JsError "Invalid Token") →
   res (serve OpVerifyEmail req w) =
     error_only (VNum 400) (VStr "Invalid token, verification unsuccessful"))
  ∧
  (∀ decoded,
     verifyToken (now w) (query_token req) = Normal decoded →
     List.filter (λ u, (id u =? claim_id decoded)%Z) (users w) = [] →
     res (serve OpVerifyEmail req w) =
       error_only (VNum 400) (VStr "no user found to verify"))
  ∧
  (∀ e,
     verifyToken (now w) (query_token req) = Throw e →
     err_message e ≠ VStr "Invalid Token" →
     err_message e ≠ VStr "Not Found" →
     res (serve OpVerifyEmail req w) = error_only VUndefined VUndefined).
Proof.
  unfold serve, handler, AuthController.verifyEmail, AuthController.verify.
  split; [|split].
  - intros E. js_run. cbn [now set_res]. rewrite E. reflexivity.
  - intros decoded E Hnone. js_run. cbn [now set_res]. rewrite E.
    rewrite updateById_not_found by exact Hnone. reflexivity.
  - intros e E Hinv Hnf. js_run. cbn [now set_res]. rewrite E.
    rewrite (strict_eq_str_false _ _ Hinv), (strict_eq_str_false _ _ Hnf).
    reflexivity.
Qed.

(** A token that verifies to the id of a row marks that row verified and
    replies with the shaped row. *)
Lemma verifyEmail_success (req : Request) (w : World) (decoded : Claims)
    (u : User) (rest : list User) :
  verifyToken (now w) (query_token req) = Normal decoded →
  List.filter (λ u, (id u =? claim_id decoded)%Z) (users w) = u :: rest →
  let fields := {| patch_isVerified := Some true; patch_password := None |} in
  serve OpVerifyEmail req w =
    set_res (λ _, {| cookies := [];
                     replies := [successResponse (DUser (UserResponse (apply_patch fields u))) None] |})
      (set_users (map (λ u, if (id u =? claim_id decoded)%Z then apply_patch fields u else u)) w).
Proof.
  intros E Hrows. unfold serve, handler, AuthController.verifyEmail, AuthController.verify.
  js_run. cbn [now set_res]. rewrite E.
  rewrite (updateById_found _ _ _ u rest) by exact Hrows. reflexivity.
Qed.

End VerifyEmail.

(** ** The mailer's reports *)
Section MailerReports.
Context `{Helpers}.

(** A send is logged, and reports whether the provider took it. *)
Lemma sendResetMail_reports (to first link : string) (w : World) :
  Mailer.sendResetMail to first link w =
    (Normal (mailerUp w), set_outbox (λ o, o ++ [ResetMail to first link]) w).
Proof.
  unfold Mailer.sendResetMail, Mailer.sendgrid_send. js_run.
  destruct (mailerUp w); reflexivity.
Qed.

Lemma sendVerificationEmail_reports (req : Request) (options : UserResponseT) (w : World) :
  Mailer.sendVerificationEmail req options w =
    (Normal (mailerUp w),
     set_outbox (λ o, o ++ [verification_mail (now w) req options]) w).
Proof.
  unfold Mailer.sendVerificationEmail, Mailer.sendgrid_send. js_run.
  destruct (mailerUp w); reflexivity.
Qed.

End MailerReports.

(** ** Requesting a reset link *)
Section SendResetPasswordEmail.
Context `{Helpers}.

(** C6. A request for a reset link fails with status 404 and "User account
    does not exist" when no user has the body email. When a user has it, a
    token over its first name, id and email is issued for 24h and the mailer
    is called with the link that embeds the token; if the mailer reports
    failure the request fails with status 404 and the boolean [false] as its
    message, and if the mailer reports success the reply is 200 with a
    confirmation string. *)
Theorem sendResetPasswordEmail_outcomes (req : Request) (w : World) :
  let e := o_email (body req) in
  (UserModel.by_email e (users w) = None →
   serve OpSendResetPasswordEmail req w =
     set_res (λ _, error_only (VNum 404) (VStr "User account does not exist")) w)
  ∧
  (∀ user,
     UserModel.by_email e (users w) = Some user →
     let t := generateToken (now w) (reset_claims user e) (Some "24h") in
     let link := AuthController.reset_link req t in
     outbox (serve OpSendResetPasswordEmail req w) =
       outbox w ++ [ResetMail e (firstName user) link]
     ∧ (completion (Mailer.sendResetMail e (firstName user) link) w = Normal false →
        res (serve OpSendResetPasswordEmail req w) = error_only (VNum 404) (VBool false))
     ∧ (completion (Mailer.sendResetMail e (firstName user) link) w = Normal true →
        res (serve OpSendResetPasswordEmail req w) =
          {| cookies := [];
             replies := [successResponse (DText "Password reset link sent successfully")
                           (Some 200%Z)] |})).
Proof.
  cbv zeta. unfold serve, handler, AuthController.sendResetPasswordEmail,
    UserService.find, UserModel.findOne, AuthController.issue.
  split.
  - intros Hnone. js_run. cbn [users set_res]. rewrite Hnone. reflexivity.
  - intros user Hu. unfold completion. rewrite !sendResetMail_reports.
    js_run. cbn [users set_res now]. rewrite Hu.
    rewrite sendResetMail_reports. cbn [mailerUp set_res].
    split; [|split].
    + destruct (mailerUp w); reflexivity.
    + intros [= ->]. reflexivity.
    + intros [= ->]. reflexivity.
Qed.

End SendResetPasswordEmail.

(** ** Creating a user *)
Section Create.
Context `{Helpers}.

(** The whole effect of [create]: the hash is written into the caller's
    object first, and the row is made from the object as it then is. *)
Lemma create_outcome (user : nat) (o : UserObject) (w : World) :
  heap w !! user = Some o →
  let h := hashPassword (entropy w) (o_password o) in
  let w1 := set_heap (alter (set_o_password h) user) (set_entropy S w) in
  let row := UserModel.new_row (set_o_password h o) (nextId w) in
  UserService.create user w =
    if existsb (λ u, String.eqb (email u) (o_email o)) (users w)
    then (Throw (JsError "Validation error"), w1)
    else (Normal row, set_nextId Z.succ (set_users (λ us, us ++ [row]) w1)).
Proof.
  intros Ho. cbv zeta.
  unfold UserService.create, deref, assign_password, UserService.hash, UserModel.create.
  js_run. rewrite Ho. cbn [heap set_heap set_entropy users entropy nextId].
  rewrite list_lookup_alter_eq, Ho. cbn [fmap option_fmap option_map o_email set_o_password].
  destruct (existsb _ _); reflexivity.
Qed.

End Create.

(** ** Signup *)
Section SignUp.
Context `{Helpers}.

Lemma by_email_None_existsb (e : string) (rows : list User) :
  UserModel.by_email e rows = None →
  existsb (λ u, String.eqb (email u) e) rows = false.
Proof.
  unfold UserModel.by_email. induction rows as [|u rows IH]; [reflexivity|].
  cbn. destruct (String.eqb (email u) e); [discriminate|]. exact IH.
Qed.

(** The whole effect of a signup whose email is free. The copy of the body
    that the handler makes lands behind the last reference of the heap. *)
Lemma signUp_outcome (req : Request) (w : World) :
  UserModel.by_email (o_email (body req)) (users w) = None →
  let h := hashPassword (entropy w) (o_password (body req)) in
  let row := UserModel.new_row (set_o_password h (body req)) (nextId w) in
  let t := generateToken (now w) (AuthController.session_claims row) None in
  let shaped := UserResponse (set_token t row) in
  serve OpSignUp req w =
    set_res (λ _, {| cookies := [AuthController.day_cookie (Some t)];
                     replies := [successResponse (DSignup shaped (mailerUp w)) (Some 201%Z)] |})
      (set_outbox (λ o, o ++ [verification_mail (now w) req shaped])
         (set_nextId Z.succ
            (set_users (λ us, us ++ [row])
               (set_entropy S
                  (set_heap (λ hp, hp ++ [set_o_password h (body req)]) w))))).
Proof.
  intros Hnone. cbv zeta.
  unfold serve, handler, AuthController.signUp, alloc, AuthController.issue.
  unfold exec, try_catch, mbind, Js_bind, js_bind.
  rewrite (create_outcome (length (heap w)) (body req)).
  2:{ world_simpl. rewrite lookup_app_r by lia. rewrite Nat.sub_diag. reflexivity. }
  world_simpl.
  rewrite (by_email_None_existsb _ _ Hnone).
  rewrite sendVerificationEmail_reports.
  unfold res_cookie, respond, modify. world_simpl.
  world_ext; try reflexivity.
  rewrite (alter_app_r_alt _ (heap w) [body req] (length (heap w))) by lia.
  rewrite Nat.sub_diag. reflexivity.
Qed.

(** C7. A signup whose user is persisted is not aborted by a failed
    verification mail: the reply is 201 with the shaped user, its
    [emailSent] flag is what the mailer reported (so it is [false] exactly
    when the send failed), and the issued token is set as the cookie
    [token], httpOnly, with a max-age of 24h in milliseconds. *)
Theorem signUp_survives_mail_failure (req : Request) (w : World) :
  UserModel.by_email (o_email (body req)) (users w) = None →
  let h := hashPassword (entropy w) (o_password (body req)) in
  let row := UserModel.new_row (set_o_password h (body req)) (nextId w) in
  let t := generateToken (now w) (AuthController.session_claims row) None in
  let shaped := UserResponse (set_token t row) in
  users (serve OpSignUp req w) = users w ++ [row]
  ∧ (∀ w', mailerUp w' = mailerUp w →
       completion (Mailer.sendVerificationEmail req shaped) w' = Normal (mailerUp w))
  ∧ res (serve OpSignUp req w) =
      {| cookies := [SetCookie "token" (Some t)
                       {| maxAge := Some (24 * 60 * 60 * 1000)%Z; httpOnly := true |}];
         replies := [successResponse (DSignup shaped (mailerUp w)) (Some 201%Z)] |}
  ∧ (mailerUp w = false →
       replies (res (serve OpSignUp req w)) =
         [successResponse (DSignup shaped false) (Some 201%Z)]).
Proof.
  intros Hnone. cbv zeta. rewrite (signUp_outcome req w Hnone). cbv zeta.
  world_simpl. split; [reflexivity|]. split; [|split].
  - intros w' Hup. unfold completion. rewrite sendVerificationEmail_reports.
    cbn [fst]. rewrite Hup. reflexivity.
  - reflexivity.
  - intros ->. reflexivity.
Qed.

(** A signup for an email that is taken gets the generic error reply. *)
Lemma signUp_taken (req : Request) (w : World) (u : User) :
  UserModel.by_email (o_email (body req)) (users w) = Some u →
  res (serve OpSignUp req w) = error_only VUndefined VUndefined
  ∧ users (serve OpSignUp req w) = users w.
Proof.
  intros Hu.
  assert (Hex : existsb (λ u, String.eqb (email u) (o_email (body req))) (users w) = true).
  { revert Hu. unfold UserModel.by_email.
    induction (users w) as [|v rows IH]; [discriminate|].
    cbn. destruct (String.eqb (email v) _); [reflexivity|]. exact IH. }
  unfold serve, handler, AuthController.signUp, alloc, AuthController.issue.
  unfold exec, try_catch, mbind, Js_bind, js_bind.
  rewrite (create_outcome (length (heap w)) (body req)).
  2:{ world_simpl. rewrite lookup_app_r by lia. rewrite Nat.sub_diag. reflexivity. }
  world_simpl. rewrite Hex. unfold respond, modify. world_simpl.
  split; reflexivity.
Qed.

End SignUp.

(** ** [create] and its argument *)
Section CreateMutates.
Context `{Helpers}.

(** C10. [UserService.create] writes the hash of the password into the
    object that its caller passed, before it persists anything: after the
    call, whether or not the row could be stored, the caller's object holds
    the hash where it held the plaintext, so it is no longer the plaintext
    wherever the hasher does not return its input; and when the row is
    stored, the record that comes back holds that same hash. *)
Theorem create_overwrites_callers_password (user : nat) (o : UserObject) (w : World) :
  heap w !! user = Some o →
  let h := hashPassword (entropy w) (o_password o) in
  heap (exec (UserService.create user) w) !! user = Some (set_o_password h o)
  ∧ (h ≠ o_password o →
     o_password <$> heap (exec (UserService.create user) w) !! user ≠ Some (o_password o))
  ∧ (∀ l, l ≠ user → heap (exec (UserService.create user) w) !! l = heap w !! l)
  ∧ (∀ row, completion (UserService.create user) w = Normal row → password row = h)
  ∧ (UserModel.by_email (o_email o) (users w) = None →
     completion (UserService.create user) w =
       Normal (UserModel.new_row (set_o_password h o) (nextId w))).
Proof.
  intros Ho. cbv zeta. unfold exec, completion.
  rewrite (create_outcome user o w Ho). cbv zeta.
  assert (Hheap : ∀ b (x y : Completion User * World),
             heap x.2 = heap y.2 → heap (if b : bool then x else y).2 = heap x.2).
  { intros [] x y E; congruence. }
  rewrite Hheap by reflexivity. world_simpl.
  rewrite list_lookup_alter_eq, Ho. cbn [fmap option_fmap option_map o_password set_o_password].
  split; [reflexivity|]. split; [congruence|]. split; [|split].
  - intros l Hl. apply list_lookup_alter_ne. congruence.
  - intros row. destruct (existsb _ _); cbn [fst]; [discriminate|]. intros [= <-]. reflexivity.
  - intros Hnone. rewrite (by_email_None_existsb _ _ Hnone). reflexivity.
Qed.

End CreateMutates.

(** ** What each operation does to the table *)
Section TableChanges.
Context `{Helpers}.

Lemma keeps_ret {A} (a : A) : keeps_users (mret a).
Proof. intros w. reflexivity. Qed.

Lemma keeps_throw {A} (e : Thrown) : keeps_users (@throw A e).
Proof. intros w. reflexivity. Qed.

Lemma keeps_bind {A B} (m : Js A) (k : A → Js B) :
  keeps_users m → (∀ a, keeps_users (k a)) → keeps_users (m ≫= k).
Proof.
  intros Hm Hk w. specialize (Hm w). unfold exec in *. js_unfold.
  destruct (m w) as [[a|e] w']; cbn [snd] in *.
  - rewrite <- Hm. apply Hk.
  - exact Hm.
Qed.

Lemma keeps_try_catch {A} (m : Js A) (h : Thrown → Js A) :
  keeps_users m → (∀ e, keeps_users (h e)) → keeps_users (try_catch m h).
Proof.
  intros Hm Hh w. specialize (Hm w). unfold exec in *. js_unfold.
  destruct (m w) as [[a|e] w']; cbn [snd] in *.
  - exact Hm.
  - rewrite <- Hm. apply Hh.
Qed.

Lemma keeps_respond (r : Reply) : keeps_users (respond r).
Proof. intros w. reflexivity. Qed.

Lemma keeps_res_cookie (c : CookieOp) : keeps_users (res_cookie c).
Proof. intros w. reflexivity. Qed.

Lemma keeps_findOne (e : string) : keeps_users (UserModel.findOne e).
Proof. intros w. reflexivity. Qed.

Lemma keeps_issue (c : Claims) (ttl : option string) : keeps_users (AuthController.issue c ttl).
Proof. intros w. reflexivity. Qed.

Lemma keeps_verify (t : string) : keeps_users (AuthController.verify t).
Proof. intros w. reflexivity. Qed.

Lemma keeps_sendResetMail (to first link : string) :
  keeps_users (Mailer.sendResetMail to first link).
Proof. intros w. unfold exec. rewrite sendResetMail_reports. reflexivity. Qed.

Lemma keeps_service_socialLogin (p : SocialProfile) : keeps_users (UserService.socialLogin p).
Proof.
  unfold UserService.socialLogin.
  apply keeps_try_catch; [|intros e; apply keeps_throw].
  apply keeps_bind.
  - destruct (emails p !! 0%nat); [apply keeps_ret | apply keeps_throw].
  - intros e. apply keeps_bind; [apply keeps_findOne|].
    intros [u|]; [apply keeps_ret | apply keeps_throw].
Qed.

Create HintDb frame.

#[local] Hint Resolve keeps_ret keeps_throw keeps_respond keeps_res_cookie
  keeps_findOne keeps_issue keeps_verify keeps_sendResetMail
  keeps_service_socialLogin : frame.

Lemma keeps_loginUser (req : Request) : keeps_users (AuthController.loginUser req).
Proof.
  unfold AuthController.loginUser, UserService.userLogin.
  apply keeps_try_catch; [|auto with frame].
  apply keeps_bind; [auto with frame|]. intros [u|]; [|auto with frame].
  destruct (negb _); [auto with frame|].
  apply keeps_bind; [auto with frame|]. intros t.
  apply keeps_bind; auto with frame.
Qed.

Lemma keeps_socialLogin (req : Request) : keeps_users (AuthController.socialLogin req).
Proof.
  unfold AuthController.socialLogin.
  apply keeps_try_catch; [|auto with frame].
  apply keeps_bind; [auto with frame|]. intros u.
  apply keeps_bind; auto with frame.
Qed.

Lemma keeps_logout (req : Request) : keeps_users (AuthController.logout req).
Proof.
  unfold AuthController.logout.
  apply keeps_try_catch; [|auto with frame].
  apply keeps_bind; auto with frame.
Qed.

Lemma keeps_verifyPasswordResetLink (req : Request) :
  keeps_users (AuthController.verifyPasswordResetLink req).
Proof.
  unfold AuthController.verifyPasswordResetLink.
  apply keeps_try_catch; [|auto with frame].
  apply keeps_bind; auto with frame.
Qed.

Lemma keeps_sendResetPasswordEmail (req : Request) :
  keeps_users (AuthController.sendResetPasswordEmail req).
Proof.
  unfold AuthController.sendResetPasswordEmail, UserService.find.
  apply keeps_try_catch; [|auto with frame].
  apply keeps_bind; [auto with frame|]. intros [u|]; [|auto with frame].
  apply keeps_bind; [auto with frame|]. intros t.
  apply keeps_bind; [auto with frame|]. intros []; auto with frame.
Qed.

Lemma verifyEmail_table (req : Request) (w : World) :
  table_change (Served OpVerifyEmail req) (users w) (users (serve OpVerifyEmail req w)).
Proof.
  unfold serve, handler.
  destruct (verifyToken (now w) (query_token req)) as [decoded|e] eqn:E.
  - destruct (List.filter (λ u, (id u =? claim_id decoded)%Z) (users w)) as [|u rest] eqn:F.
    + unfold AuthController.verifyEmail, AuthController.verify. js_run. world_simpl.
      rewrite E. rewrite updateById_not_found by exact F.
      world_simpl. apply tc_unchanged.
    + fold (handler OpVerifyEmail). fold (serve OpVerifyEmail req w).
      rewrite (verifyEmail_success req w decoded u rest E F). world_simpl.
      eapply tc_verified. reflexivity.
  - unfold AuthController.verifyEmail, AuthController.verify. js_run. world_simpl.
    rewrite E. repeat (destruct (strict_eq_str _ _)); world_simpl; apply tc_unchanged.
Qed.

Lemma step_table_change (w : World) (ev : Event) :
  table_change ev (users w) (users (step w ev)).
Proof.
  destruct ev as [op req|t up]; [|apply tc_unchanged].
  cbn [step]. destruct op.
  - destruct (UserModel.by_email (o_email (body req)) (users w)) as [u|] eqn:E.
    + destruct (signUp_taken req w u E) as [_ ->]. apply tc_unchanged.
    + rewrite (signUp_outcome req w E). cbv zeta. world_simpl.
      eapply tc_created; reflexivity.
  - apply verifyEmail_table.
  - unfold serve, handler. rewrite keeps_sendResetPasswordEmail. apply tc_unchanged.
  - rewrite resetPassword_outcome. cbv zeta. world_simpl. eapply tc_rehashed. reflexivity.
  - unfold serve, handler. rewrite keeps_verifyPasswordResetLink. apply tc_unchanged.
  - unfold serve, handler. rewrite keeps_loginUser. apply tc_unchanged.
  - unfold serve, handler. rewrite keeps_socialLogin. apply tc_unchanged.
  - unfold serve, handler. rewrite keeps_logout. apply tc_unchanged.
Qed.

End TableChanges.

(** ** The verification flag along a run *)
Section VerificationFlag.
Context `{Helpers}.

Lemma flag_map (f : User → User) (w w' : World) (i : nat) :
  users w' = map f (users w) →
  flag w' i = (λ u, isVerified (f u)) <$> users w !! i.
Proof.
  intros E. unfold flag. rewrite E, list_lookup_fmap.
  destruct (users w !! i); reflexivity.
Qed.

(** A record is created unverified. *)
Lemma flag_starts_false (w : World) (ev : Event) (i : nat) (b : bool) :
  flag w i = None → flag (step w ev) i = Some b →
  b = false ∧ ∃ req, ev = Served OpSignUp req.
Proof.
  unfold flag. intros Hnone Hsome.
  destruct (step_table_change w ev) as [|req row Hev Hrow|req j Hev|req e h Hev].
  - congruence.
  - destruct (users w !! i) as [u|] eqn:Hi; [discriminate|].
    apply lookup_ge_None in Hi.
    destruct (decide (i = length (users w))) as [->|Hne].
    + rewrite list_lookup_middle in Hsome by reflexivity. cbn in Hsome.
      split; [congruence | eauto].
    + rewrite lookup_ge_None_2 in Hsome; [discriminate|].
      rewrite length_app. cbn. lia.
  - rewrite list_lookup_fmap in Hsome.
    destruct (users w !! i); discriminate.
  - rewrite list_lookup_fmap in Hsome.
    destruct (users w !! i); discriminate.
Qed.

(** No event takes a verified record back. *)
Lemma flag_stays_true (w : World) (ev : Event) (i : nat) :
  flag w i = Some true → flag (step w ev) i = Some true.
Proof.
  unfold flag. intros Ht.
  destruct (users w !! i) as [u|] eqn:Hi; [|discriminate].
  injection Ht as Ht.
  destruct (step_table_change w ev) as [|req row Hev Hrow|req j Hev|req e h Hev].
  - rewrite Hi. cbn. congruence.
  - rewrite (lookup_app_l_Some _ _ _ _ Hi). cbn. congruence.
  - rewrite list_lookup_fmap, Hi. cbn. destruct (id u =? j)%Z; cbn; congruence.
  - rewrite list_lookup_fmap, Hi. cbn. destruct (String.eqb _ _); cbn; congruence.
Qed.

(** Only a verify-email request verifies a record. *)
Lemma flag_set_by_verifyEmail (w : World) (ev : Event) (i : nat) :
  flag w i = Some false → flag (step w ev) i = Some true →
  ∃ req, ev = Served OpVerifyEmail req.
Proof.
  unfold flag. intros Hf Ht.
  destruct (users w !! i) as [u|] eqn:Hi; [|discriminate].
  injection Hf as Hf.
  destruct (step_table_change w ev) as [|req row Hev Hrow|req j Hev|req e h Hev].
  - rewrite Hi in Ht. cbn in Ht. congruence.
  - rewrite (lookup_app_l_Some _ _ _ _ Hi) in Ht. cbn in Ht. congruence.
  - eauto.
  - rewrite list_lookup_fmap, Hi in Ht. cbn in Ht.
    destruct (String.eqb _ _); cbn in Ht; congruence.
Qed.

Lemma run_cons (w : World) (ev : Event) (evs : list Event) :
  run w (ev :: evs) = run (step w ev) evs.
Proof. reflexivity. Qed.

Lemma flag_stays_true_run (w : World) (evs : list Event) (i : nat) :
  flag w i = Some true → flag (run w evs) i = Some true.
Proof.
  revert w. induction evs as [|ev evs IH]; intros w Ht; [exact Ht|].
  rewrite run_cons. apply IH, flag_stays_true, Ht.
Qed.

Lemma verifications_after_true (w : World) (evs : list Event) (i : nat) :
  flag w i = Some true → verifications i w evs = 0.
Proof.
  revert w. induction evs as [|ev evs IH]; intros w Ht; [reflexivity|].
  cbn [verifications]. rewrite Ht. cbn [became_verified].
  rewrite IH by (apply flag_stays_true, Ht). reflexivity.
Qed.

(** Along a run the record in a row goes over to verified once if it ends up
    verified without having started so, and never otherwise. *)
Lemma verifications_count (w : World) (evs : list Event) (i : nat) :
  verifications i w evs =
    if became_verified (flag w i) (flag (run w evs) i) then 1 else 0.
Proof.
  revert w. induction evs as [|ev evs IH]; intros w.
  - cbn. destruct (flag w i) as [[]|]; reflexivity.
  - cbn [verifications]. rewrite run_cons.
    destruct (flag w i) as [[]|] eqn:Hw.
    + rewrite verifications_after_true by (apply flag_stays_true, Hw). reflexivity.
    + destruct (flag (step w ev) i) as [[]|] eqn:Hs; cbn [became_verified].
      * rewrite verifications_after_true by exact Hs.
        rewrite (flag_stays_true_run _ _ _ Hs). reflexivity.
      * rewrite IH, Hs. reflexivity.
      * rewrite IH, Hs. reflexivity.
    + destruct (flag (step w ev) i) as [[]|] eqn:Hs; cbn [became_verified].
      * rewrite verifications_after_true by exact Hs.
        rewrite (flag_stays_true_run _ _ _ Hs). reflexivity.
      * rewrite IH, Hs. reflexivity.
      * rewrite IH, Hs. reflexivity.
Qed.

(** C8. The verification flag of a user record: a record that appears in the
    table appears with the flag false, and only a signup makes one appear; a
    flag that is true stays true through every run of events, so no operation
    of the flow sets it back; a flag goes from false to true at a verify-email
    request only; and in every run in which a record that did not start
    verified ends up verified, the flag went over to true at exactly one
    event. *)
Theorem isVerified_lifecycle (w : World) (i : nat) :
  (∀ ev b, flag w i = None → flag (step w ev) i = Some b →
           b = false ∧ ∃ req, ev = Served OpSignUp req)
  ∧ (∀ evs, flag w i = Some true → flag (run w evs) i = Some true)
  ∧ (∀ ev, flag w i = Some false → flag (step w ev) i = Some true →
           ∃ req, ev = Served OpVerifyEmail req)
  ∧ (∀ evs, flag w i ≠ Some true → flag (run w evs) i = Some true →
            verifications i w evs = 1)
  ∧ (∀ evs, (verifications i w evs ≤ 1)%nat).
Proof.
  split; [|split; [|split; [|split]]].
  - intros ev b. apply flag_starts_false.
  - intros evs. apply flag_stays_true_run.
  - intros ev. apply flag_set_by_verifyEmail.
  - intros evs Hw Hr. rewrite verifications_count, Hr.
    destruct (flag w i) as [[]|]; [congruence|reflexivity|reflexivity].
  - intros evs. rewrite verifications_count. destruct (became_verified _ _); lia.
Qed.

End VerificationFlag.

(** ** The token codec *)
Section TokenRoundTrip.
Variable mac : string → TokenCodec.Payload → string.
Variable secret : string.

Lemma check_issued (c : Claims) (issued ttl t : Z) :
  TokenCodec.check mac secret t (TokenCodec.issue mac secret issued c ttl) =
    if (issued + ttl <=? t)%Z then inl TokenCodec.Expired
    else inr (TokenCodec.payload (TokenCodec.issue mac secret issued c ttl)).
Proof.
  unfold TokenCodec.check, TokenCodec.issue. cbn.
  rewrite String.eqb_refl. reflexivity.
Qed.

(** A token whose payload was changed after signing is rejected, unless the
    signature happens to fit the new payload as well. *)
Lemma verify_tampered (t : Z) (tok : TokenCodec.Token) :
  TokenCodec.signature tok ≠ mac secret (TokenCodec.payload tok) →
  TokenCodec.verify mac secret t tok = Throw (JsError "Invalid Token").
Proof.
  intros Hne. unfold TokenCodec.verify, TokenCodec.check.
  apply String.eqb_neq in Hne. rewrite Hne. reflexivity.
Qed.

(** C9. Verifying a token that was just issued from some claims, with a
    lifetime that has not run out, gives those claims back, the expiry that
    the token also carries set aside; verifying it once its lifetime has run
    out fails with [Invalid Token]. *)
Theorem token_round_trip_and_expiry (c : Claims) (issued ttl : Z) :
  (0 < ttl)%Z →
  let tok := TokenCodec.issue mac secret issued c ttl in
  TokenCodec.verify mac secret issued tok = Normal c
  ∧ (∀ t, (t < issued + ttl)%Z → TokenCodec.verify mac secret t tok = Normal c)
  ∧ (∀ t, (issued + ttl ≤ t)%Z →
          TokenCodec.verify mac secret t tok = Throw (JsError "Invalid Token"))
  ∧ TokenCodec.exp (TokenCodec.payload tok) = (issued + ttl)%Z.
Proof.
  intros Httl. cbv zeta. unfold TokenCodec.verify.
  split; [|split; [|split]].
  - rewrite check_issued. destruct (Z.leb_spec (issued + ttl) issued); [lia|reflexivity].
  - intros t Ht. rewrite check_issued.
    destruct (Z.leb_spec (issued + ttl) t); [lia|reflexivity].
  - intros t Ht. rewrite check_issued.
    destruct (Z.leb_spec (issued + ttl) t); [reflexivity|lia].
  - reflexivity.
Qed.

End TokenRoundTrip.

(** * The sample deployment, run *)

(** C1. On the store without users, a social login for the sample identity
    does not answer 403: the service rethrows its own 403 as a 500, and the
    controller, which reads [statusCode] from an error that has [status],
    replies with the signup message and no status at all. *)
Theorem socialLogin_unknown_email_is_not_403 :
  UserModel.by_email "jubilee.barefootnomad@gmail.com" (users Sample.empty) = None
  ∧ completion (@UserService.socialLogin (req_user Sample.request)) Sample.empty =
      Throw (ApiError 500 (VStr "You need to signup to use this feature"))
  ∧ res (@serve Sample.helpers OpSocialLogin Sample.request Sample.empty) =
      error_only VUndefined (VStr "You need to signup to use this feature")
  ∧ errorResponse (VNum 403) (VStr "You need to signup to use this feature")
      ∉ replies (res (@serve Sample.helpers OpSocialLogin Sample.request Sample.empty)).
Proof.
  split; [reflexivity|]. split; [reflexivity|]. split; [reflexivity|].
  rewrite (@socialLogin_unknown Sample.helpers Sample.request
             "jubilee.barefootnomad@gmail.com" Sample.empty) by reflexivity.
  cbn. intros Hin. apply list_elem_of_singleton in Hin. discriminate Hin.
Qed.

(** An unknown email on the empty store and a wrong password for the sample user. *)
Lemma login_failures_indistinguishable_witness :
  res (@serve Sample.helpers OpLoginUser Sample.request Sample.empty) =
    res (@serve Sample.helpers OpLoginUser
           (Sample.with_password "guess" Sample.request) Sample.seeded)
  ∧ res (@serve Sample.helpers OpLoginUser Sample.request Sample.empty) = invalid_login.
Proof.
  pose proof (@login_failures_indistinguishable Sample.helpers
                Sample.request (Sample.with_password "guess" Sample.request)
                Sample.empty Sample.seeded Sample.king_row
                eq_refl eq_refl eq_refl) as (E1 & E2 & _).
  exact (conj E1 E2).
Defined.

(** The same reset with a forged query token, under helpers that accept no token. *)
Lemma resetPassword_verifies_no_token_witness :
  @serve Sample.helpers OpResetPassword Sample.request Sample.seeded =
  @serve Sample.strict_helpers OpResetPassword
    (Sample.with_token "forged" Sample.request) Sample.seeded.
Proof.
  apply (resetPassword_verifies_no_token Sample.helpers Sample.strict_helpers
           Sample.request (Sample.with_token "forged" Sample.request) Sample.seeded).
  - intros n p. reflexivity.
  - reflexivity.
  - reflexivity.
Defined.

(** A tampered token, a token for an id that no row has, and a codec failure. *)
Lemma verifyEmail_failure_mapping_witness :
  res (@serve Sample.helpers OpVerifyEmail
         (Sample.with_token "tampered" Sample.request) Sample.seeded) =
    error_only (VNum 400) (VStr "Invalid token, verification unsuccessful")
  ∧ res (@serve Sample.helpers OpVerifyEmail
           (Sample.with_token "jwt.9" Sample.request) Sample.seeded) =
      error_only (VNum 400) (VStr "no user found to verify")
  ∧ res (@serve Sample.helpers OpVerifyEmail
           (Sample.with_token "jwt.broken" Sample.request) Sample.seeded) =
      error_only VUndefined VUndefined.
Proof.
  split; [|split].
  - apply (proj1 (@verifyEmail_failure_mapping Sample.helpers
                    (Sample.with_token "tampered" Sample.request) Sample.seeded)).
    reflexivity.
  - apply (proj1 (proj2 (@verifyEmail_failure_mapping Sample.helpers
                           (Sample.with_token "jwt.9" Sample.request) Sample.seeded))
             (Sample.claims_of 9)); reflexivity.
  - apply (proj2 (proj2 (@verifyEmail_failure_mapping Sample.helpers
                           (Sample.with_token "jwt.broken" Sample.request) Sample.seeded))
             (JsError "secretOrPrivateKey must have a value"));
      [reflexivity | discriminate | discriminate].
Defined.

(** A reset for the sample user's email, with and without its row. *)
Lemma resetPassword_row_count_witness :
  replies (res (@serve Sample.helpers OpResetPassword Sample.request Sample.seeded)) =
    [successResponse (DText "Password has been changed successfully") (Some 200%Z)]
  ∧ replies (res (@serve Sample.helpers OpResetPassword Sample.request Sample.empty)) =
      [errorResponse (VNum 404) (VStr "User account does not exist")].
Proof.
  split.
  - apply (proj1 (@resetPassword_row_count Sample.helpers Sample.request Sample.seeded
                    [Sample.king_row])).
    reflexivity.
  - apply (proj2 (@resetPassword_row_count Sample.helpers Sample.request Sample.empty [])).
    reflexivity.
Defined.

(** A reset link requested for an unknown email, and for the sample user with the provider up and down. *)
Lemma sendResetPasswordEmail_outcomes_witness :
  res (@serve Sample.helpers OpSendResetPasswordEmail Sample.request Sample.empty) =
    error_only (VNum 404) (VStr "User account does not exist")
  ∧ outbox (@serve Sample.helpers OpSendResetPasswordEmail Sample.request Sample.seeded) =
      [ResetMail "jubilee.barefootnomad@gmail.com" "King"
         "https://jubilee.test/api/auth/reset-password?token=jwt.1"]
  ∧ res (@serve Sample.helpers OpSendResetPasswordEmail Sample.request Sample.seeded_offline) =
      error_only (VNum 404) (VBool false)
  ∧ replies (res (@serve Sample.helpers OpSendResetPasswordEmail Sample.request Sample.seeded)) =
      [successResponse (DText "Password reset link sent successfully") (Some 200%Z)].
Proof.
  split; [|split; [|split]].
  - rewrite (proj1 (@sendResetPasswordEmail_outcomes Sample.helpers
                      Sample.request Sample.empty) eq_refl).
    reflexivity.
  - exact (proj1 (proj2 (@sendResetPasswordEmail_outcomes Sample.helpers
                           Sample.request Sample.seeded) Sample.king_row eq_refl)).
  - exact (proj1 (proj2 (proj2 (@sendResetPasswordEmail_outcomes Sample.helpers
                                  Sample.request Sample.seeded_offline)
                           Sample.king_row eq_refl)) eq_refl).
  - rewrite (proj2 (proj2 (proj2 (@sendResetPasswordEmail_outcomes Sample.helpers
                                    Sample.request Sample.seeded)
                             Sample.king_row eq_refl)) eq_refl).
    reflexivity.
Defined.

(** The sample signup while the mail provider is down. *)
Lemma signUp_survives_mail_failure_witness :
  mailerUp Sample.empty_offline = false
  ∧ res (@serve Sample.helpers OpSignUp Sample.request Sample.empty_offline) =
      {| cookies := [SetCookie "token" (Some "jwt.1")
                       {| maxAge := Some 86400000%Z; httpOnly := true |}];
         replies :=
           [successResponse
              (DSignup
                 {| r_id := 1; r_firstName := "King"; r_lastName := "David";
                    r_email := "jubilee.barefootnomad@gmail.com"; r_role := "user";
                    r_isVerified := false;
                    r_others := [("country", "Nigeria"); ("companyName", "Andela")];
                    r_token := Some "jwt.1" |}
                 false)
              (Some 201%Z)] |}.
Proof.
  split; [reflexivity|].
  exact (proj1 (proj2 (proj2 (@signUp_survives_mail_failure Sample.helpers
                                Sample.request Sample.empty_offline eq_refl)))).
Defined.

(** The sample session: the record appears unverified and goes over to verified once. *)
Lemma isVerified_lifecycle_witness :
  flag Sample.empty 0 = None
  ∧ flag (@step Sample.helpers Sample.empty (Served OpSignUp Sample.request)) 0 = Some false
  ∧ flag (@run Sample.helpers Sample.empty Sample.session) 0 = Some true
  ∧ @verifications Sample.helpers 0 Sample.empty Sample.session = 1%nat.
Proof.
  split; [reflexivity|]. split; [reflexivity|]. split; [reflexivity|].
  apply (proj1 (proj2 (proj2 (proj2 (@isVerified_lifecycle Sample.helpers Sample.empty 0%nat))))).
  - discriminate.
  - reflexivity.
Defined.

(** A 24h token, verified when issued and when its lifetime has run out. *)
Lemma token_round_trip_and_expiry_witness :
  TokenCodec.verify Sample.mac "s3cret" 1573000000
    (TokenCodec.issue Sample.mac "s3cret" 1573000000 (Sample.claims_of 1) 86400) =
    Normal (Sample.claims_of 1)
  ∧ TokenCodec.verify Sample.mac "s3cret" (1573000000 + 86400)
      (TokenCodec.issue Sample.mac "s3cret" 1573000000 (Sample.claims_of 1) 86400) =
      Throw (JsError "Invalid Token").
Proof.
  pose proof (token_round_trip_and_expiry Sample.mac "s3cret" (Sample.claims_of 1)
                1573000000 86400 eq_refl) as (E1 & _ & E3 & _).
  split; [exact E1|]. apply E3. reflexivity.
Defined.

(** The sample object before and after [create]. *)
Lemma create_overwrites_callers_password_witness :
  o_password <$> heap Sample.holding !! 0%nat = Some "Elijahayodele12"
  ∧ heap (exec (@UserService.create Sample.helpers 0%nat) Sample.holding) !! 0%nat =
      Some (set_o_password "$2b$Elijahayodele12" Sample.king)
  ∧ completion (@UserService.create Sample.helpers 0%nat) Sample.holding =
      Normal (UserModel.new_row (set_o_password "$2b$Elijahayodele12" Sample.king) 1).
Proof.
  pose proof (@create_overwrites_callers_password Sample.helpers 0%nat Sample.king
                Sample.holding eq_refl) as (E1 & _ & _ & _ & E5).
  split; [reflexivity|]. split; [exact E1|]. exact (E5 eq_refl).
Defined.

(** * Further properties of the code *)

(** ** Facility amenities *)

(** X1. [sortFacilityAmenities] pairs every amenity with the facility, in
    order: the amenity ids of the result are the amenities that were passed,
    every entry carries the facility id, the pair at a position is made of
    the amenity at that position, and absent amenities give no pair. *)
Theorem sortFacilityAmenities_pairs (items : list Z) (i : Z) :
  map FacilityService.amenityId (FacilityService.sortFacilityAmenities (Some items) i) = items
  ∧ Forall (λ x, FacilityService.facilityId x = i)
      (FacilityService.sortFacilityAmenities (Some items) i)
  ∧ (∀ k, FacilityService.sortFacilityAmenities (Some items) i !! k =
          (λ item, {| FacilityService.amenityId := item;
                      FacilityService.facilityId := i |}) <$> items !! k)
  ∧ FacilityService.sortFacilityAmenities None i = []
  ∧ FacilityService.sortFacilityAmenities (Some []) i = [].
Proof.
  unfold FacilityService.sortFacilityAmenities.
  split; [|split; [|split; [|split]]].
  - induction items as [|a items IH]; [reflexivity|]. cbn. rewrite IH. reflexivity.
  - induction items as [|a items IH]; [constructor|]. cbn. constructor; [reflexivity|exact IH].
  - intros k. apply list_lookup_fmap.
  - reflexivity.
  - reflexivity.
Qed.

(** ** Social login, for every identity *)
Section SocialLoginEverywhere.
Context `{Helpers}.

(** X2. Whatever identity it is given, the service's [socialLogin] changes
    nothing, and it either returns the first row that has the identity's
    first email or throws an [ApiError] whose status is 500: an identity
    without emails and an identity without an account both come out as a
    500, because the [catch] wraps whatever the [try] throws. *)
Theorem service_socialLogin_throws_only_500 (p : SocialProfile) (w : World) :
  exec (UserService.socialLogin p) w = w
  ∧ match completion (UserService.socialLogin p) w with
    | Normal u => ∃ e, emails p !! 0%nat = Some e ∧ UserModel.by_email e (users w) = Some u
    | Throw err => err_status err = VNum 500
    end.
Proof.
  unfold UserService.socialLogin, UserModel.findOne. js_run.
  destruct (emails p !! 0%nat) as [e|] eqn:He; cbn.
  - destruct (UserModel.by_email e (users w)) as [u|] eqn:Hu; cbn.
    + split; [reflexivity|]. exists e. split; [reflexivity|exact Hu].
    + split; reflexivity.
  - split; reflexivity.
Qed.

(** X3. The controller's [socialLogin] never sets a cookie and never changes
    anything but the response. Its one reply is either the 200 with a shaped
    user that carries a token, or an error reply whose [code] is undefined:
    no failure of a social login reaches the client with a status that the
    handler chose. *)
Theorem socialLogin_reply_shapes (req : Request) (w : World) :
  ∃ r, serve OpSocialLogin req w = set_res (λ _, {| cookies := []; replies := [r] |}) w
       ∧ match r with
         | successResponse (DUser shaped) (Some 200%Z) => is_Some (r_token shaped)
         | errorResponse VUndefined _ => True
         | _ => False
         end.
Proof.
  destruct (emails (req_user req) !! 0%nat) as [e|] eqn:He.
  - destruct (UserModel.by_email e (users w)) as [u|] eqn:Hu.
    + rewrite (socialLogin_known req e u w He Hu). cbv zeta.
      eexists. split; [reflexivity|]. cbn. eauto.
    + rewrite (socialLogin_unknown req e w He Hu).
      eexists. split; [reflexivity|]. exact I.
  - unfold serve, handler, AuthController.socialLogin, UserService.socialLogin.
    js_run. rewrite He. cbn [fst snd].
    eexists. split; [reflexivity|]. exact I.
Qed.

End SocialLoginEverywhere.

(** ** [updateById] *)
Section UpdateById.
Context `{Helpers}.

Lemma filter_nil_iff (p : User → bool) (rows : list User) :
  List.filter p rows = [] ↔ ∀ u, u ∈ rows → p u = false.
Proof.
  induction rows as [|v rows IH]; cbn.
  - split; [|reflexivity]. intros _ u Hu. inversion Hu.
  - destruct (p v) eqn:Hv.
    + split; [discriminate|]. intros Hall.
      specialize (Hall v (list_elem_of_here _ _)). congruence.
    + rewrite IH. split.
      * intros Hall u Hu. apply elem_of_cons in Hu as [->|Hu]; [exact Hv|auto].
      * intros Hall u Hu. apply Hall. apply list_elem_of_further, Hu.
Qed.

Lemma filter_head_elem (p : User → bool) (rows : list User) (u : User) (rest : list User) :
  List.filter p rows = u :: rest → u ∈ rows ∧ p u = true.
Proof.
  intros E. assert (Hin : In u (List.filter p rows)) by (rewrite E; left; reflexivity).
  apply filter_In in Hin as [Hin Hp]. split; [|exact Hp].
  apply list_elem_of_In, Hin.
Qed.

(** X4. [updateById] throws [Not Found] exactly when no row has the id, and
    then the table is as it was; when it returns, what it returns is a row of
    that id with the given fields applied. *)
Theorem updateById_throws_iff_no_row (fields : UserPatch) (i : Z) (w : World) :
  (completion (UserService.updateById fields i) w = Throw (JsError "Not Found")
   ↔ ∀ u, u ∈ users w → id u ≠ i)
  ∧ (completion (UserService.updateById fields i) w = Throw (JsError "Not Found") →
     exec (UserService.updateById fields i) w = w)
  ∧ (∀ r, completion (UserService.updateById fields i) w = Normal r →
          ∃ u, r = Some (apply_patch fields u) ∧ u ∈ users w ∧ id u = i).
Proof.
  unfold completion, exec.
  destruct (List.filter (λ u, (id u =? i)%Z) (users w)) as [|u rest] eqn:F.
  - rewrite (updateById_not_found fields i w F). cbn [fst snd].
    split; [|split].
    + split; [|reflexivity]. intros _ v Hv.
      apply filter_nil_iff with (u := v) in F; [|exact Hv]. lia.
    + reflexivity.
    + intros r [=].
  - rewrite (updateById_found fields i w u rest F). cbn [fst snd].
    destruct (filter_head_elem _ _ _ _ F) as [Hin Hid].
    split; [|split].
    + split; [discriminate|]. intros Hall. specialize (Hall u Hin). lia.
    + discriminate.
    + intros r [= <-]. exists u. split; [reflexivity|]. split; [exact Hin|lia].
Qed.

End UpdateById.

(** ** What each operation can touch *)
Section Footprints.
Context `{Helpers}.

Lemma keeps_pure {A B} (π : World → B) (a : A) : keeps π (mret a : Js A).
Proof. intros w. reflexivity. Qed.

Lemma keeps_raise {A B} (π : World → B) (e : Thrown) : keeps π (@throw A e).
Proof. intros w. reflexivity. Qed.

Lemma keeps_then {A B C} (π : World → C) (m : Js A) (k : A → Js B) :
  keeps π m → (∀ a, keeps π (k a)) → keeps π (m ≫= k).
Proof.
  intros Hm Hk w. specialize (Hm w). unfold exec in *. js_unfold.
  destruct (m w) as [[a|e] w']; cbn [snd] in *.
  - rewrite <- Hm. apply Hk.
  - exact Hm.
Qed.

Lemma keeps_caught {A B} (π : World → B) (m : Js A) (h : Thrown → Js A) :
  keeps π m → (∀ e, keeps π (h e)) → keeps π (try_catch m h).
Proof.
  intros Hm Hh w. specialize (Hm w). unfold exec in *. js_unfold.
  destruct (m w) as [[a|e] w']; cbn [snd] in *.
  - exact Hm.
  - rewrite <- Hm. apply Hh.
Qed.

(** The primitives, each with the component it writes. *)
Lemma keeps_modify {B} (π : World → B) (f : World → World) :
  (∀ w, π (f w) = π w) → keeps π (modify f).
Proof. intros Hf w. apply Hf. Qed.

Lemma keeps_sendgrid {B} (π : World → B) (mail : Mail) :
  (∀ f w, π (set_outbox f w) = π w) → keeps π (Mailer.sendgrid_send mail).
Proof.
  intros Hπ w. unfold exec, Mailer.sendgrid_send.
  destruct (mailerUp w); apply Hπ.
Qed.

Lemma keeps_verification_mail {B} (π : World → B) (req : Request) (o : UserResponseT) :
  (∀ f w, π (set_outbox f w) = π w) → keeps π (Mailer.sendVerificationEmail req o).
Proof. intros Hπ w. unfold exec. rewrite sendVerificationEmail_reports. apply Hπ. Qed.

Lemma keeps_reset_mail {B} (π : World → B) (to first link : string) :
  (∀ f w, π (set_outbox f w) = π w) → keeps π (Mailer.sendResetMail to first link).
Proof. intros Hπ w. unfold exec. rewrite sendResetMail_reports. apply Hπ. Qed.

Lemma keeps_hash {B} (π : World → B) (p : string) :
  (∀ f w, π (set_entropy f w) = π w) → keeps π (UserService.hash p).
Proof. intros Hπ w. apply Hπ. Qed.

Lemma keeps_update {B} (π : World → B) (fields : UserPatch) (where_ : User → bool) :
  (∀ f w, π (set_users f w) = π w) → keeps π (UserModel.update fields where_).
Proof. intros Hπ w. apply Hπ. Qed.

Lemma keeps_create {B} (π : World → B) (o : UserObject) :
  (∀ f w, π (set_users f w) = π w) → (∀ f w, π (set_nextId f w) = π w) →
  keeps π (UserModel.create o).
Proof.
  intros Hu Hn w. unfold exec, UserModel.create.
  destruct (existsb _ _); cbn [snd]; [reflexivity|]. rewrite Hn, Hu. reflexivity.
Qed.

Lemma keeps_alloc {B} (π : World → B) (o : UserObject) :
  (∀ f w, π (set_heap f w) = π w) → keeps π (alloc o).
Proof. intros Hπ w. apply Hπ. Qed.

Lemma keeps_deref {B} (π : World → B) (l : nat) : keeps π (deref l).
Proof. intros w. unfold exec, deref. destruct (heap w !! l); reflexivity. Qed.

(** Walking through a handler: the control structure is taken apart, and
    each primitive is closed by the component it writes. *)
Ltac footprint :=
  repeat first
    [ apply keeps_caught
    | apply keeps_then
    | apply keeps_pure
    | apply keeps_raise
    | apply keeps_deref
    | apply keeps_sendgrid; reflexivity
    | apply keeps_verification_mail; reflexivity
    | apply keeps_reset_mail; reflexivity
    | apply keeps_hash; reflexivity
    | apply keeps_update; reflexivity
    | apply keeps_create; reflexivity
    | apply keeps_alloc; reflexivity
    | apply keeps_modify; reflexivity
    | match goal with
      | |- ∀ _, _ => intro
      | |- keeps _ (match ?x with _ => _ end) => destruct x
      | |- keeps _ (let '(_, _) := ?x in _) => destruct x
      end
    | (intros ?w; reflexivity) ].

Ltac open_handlers :=
  unfold AuthController.signUp, AuthController.verifyEmail,
    AuthController.sendResetPasswordEmail, AuthController.resetPassword,
    AuthController.verifyPasswordResetLink, AuthController.loginUser,
    AuthController.socialLogin, AuthController.logout,
    AuthController.shape, AuthController.issue, AuthController.verify,
    UserService.create, UserService.updateById, UserService.find,
    UserService.updatePassword, UserService.socialLogin, UserService.userLogin,
    UserModel.findOne, assign_password, respond, res_cookie.

(** X5. What the operations can touch. No operation moves the clock or the
    mail provider. Only a signup allocates an object or advances the table's
    serial; only a signup and a password reset draw a salt; only a signup and
    a request for a reset link hand anything to the mail provider; and only a
    signup, an email verification and a password reset write to the table:
    a login, a social login, a logout and the check of a reset link leave
    everything but the response as it was. *)
Theorem serve_footprint (op : Operation) (req : Request) (w : World) :
  now (serve op req w) = now w
  ∧ mailerUp (serve op req w) = mailerUp w
  ∧ (op ≠ OpSignUp → heap (serve op req w) = heap w ∧ nextId (serve op req w) = nextId w)
  ∧ (op ≠ OpSignUp → op ≠ OpResetPassword → entropy (serve op req w) = entropy w)
  ∧ (op ≠ OpSignUp → op ≠ OpSendResetPasswordEmail → outbox (serve op req w) = outbox w)
  ∧ (op ≠ OpSignUp → op ≠ OpVerifyEmail → op ≠ OpResetPassword →
     users (serve op req w) = users w).
Proof.
  unfold serve.
  assert (Hframe : ∀ {B} (π : World → B),
            (∀ f w, π (set_res f w) = π w) → keeps π (handler op req) →
            π (exec (handler op req) (set_res (λ _, fresh_res) w)) = π w).
  { intros B π Hres Hk. rewrite Hk. apply Hres. }
  split; [|split; [|split; [|split; [|split]]]].
  - apply Hframe; [reflexivity|]. destruct op; cbn [handler]; open_handlers; footprint.
  - apply Hframe; [reflexivity|]. destruct op; cbn [handler]; open_handlers; footprint.
  - intros Hop. split; (apply Hframe; [reflexivity|]);
      destruct op; try congruence; cbn [handler]; open_handlers; footprint.
  - intros Hop1 Hop2. apply Hframe; [reflexivity|].
    destruct op; try congruence; cbn [handler]; open_handlers; footprint.
  - intros Hop1 Hop2. apply Hframe; [reflexivity|].
    destruct op; try congruence; cbn [handler]; open_handlers; footprint.
  - intros Hop1 Hop2 Hop3. apply Hframe; [reflexivity|].
    destruct op; try congruence; cbn [handler]; open_handlers; footprint.
Qed.

End Footprints.

(** ** Email verification, in full *)
Section VerifyEmailOutcome.
Context `{Helpers}.

(** The whole effect of a verification whose token verifies. *)
Lemma verifyEmail_verified_outcome (req : Request) (w : World) (decoded : Claims) :
  verifyToken (now w) (query_token req) = Normal decoded →
  serve OpVerifyEmail req w =
    match List.filter (λ u, (id u =? claim_id decoded)%Z) (users w) with
    | [] => set_res (λ _, error_only (VNum 400) (VStr "no user found to verify")) w
    | u :: _ =>
        set_res (λ _, {| cookies := [];
                         replies := [successResponse
                                       (DUser (UserResponse (apply_patch mark_verified u))) None] |})
          (set_users (map (λ u, if (id u =? claim_id decoded)%Z
                                then apply_patch mark_verified u else u)) w)
    end.
Proof.
  intros E.
  destruct (List.filter (λ u, (id u =? claim_id decoded)%Z) (users w)) as [|u rest] eqn:F.
  - unfold serve, handler, AuthController.verifyEmail, AuthController.verify.
    js_run. world_simpl. rewrite E. rewrite updateById_not_found by exact F.
    reflexivity.
  - exact (verifyEmail_success req w decoded u rest E F).
Qed.

(** The whole effect of a verification whose token is refused. *)
Lemma verifyEmail_refused_outcome (req : Request) (w : World) (e : Thrown) :
  verifyToken (now w) (query_token req) = Throw e →
  serve OpVerifyEmail req w =
    set_res (λ _,
      if strict_eq_str (err_message e) "Invalid Token"
      then error_only (VNum 400) (VStr "Invalid token, verification unsuccessful")
      else if strict_eq_str (err_message e) "Not Found"
      then error_only (VNum 400) (VStr "no user found to verify")
      else error_only VUndefined VUndefined) w.
Proof.
  intros E. unfold serve, handler, AuthController.verifyEmail, AuthController.verify.
  js_run. world_simpl. rewrite E.
  repeat (destruct (strict_eq_str _ _)); reflexivity.
Qed.

Lemma filter_map_stable (p : User → bool) (f : User → User) (rows : list User) :
  (∀ u, p (f u) = p u) →
  List.filter p (map f rows) = map f (List.filter p rows).
Proof.
  intros Hp. induction rows as [|u rows IH]; [reflexivity|].
  cbn. rewrite Hp. destruct (p u); cbn; rewrite IH; reflexivity.
Qed.

Lemma mark_twice (i : Z) (u : User) :
  let f := λ u, if (id u =? i)%Z then apply_patch mark_verified u else u in
  f (f u) = f u.
Proof.
  cbv beta zeta. destruct (id u =? i)%Z eqn:E.
  - change (id (apply_patch mark_verified u)) with (id u). rewrite E. reflexivity.
  - rewrite E. reflexivity.
Qed.

(** X6. Verifying an email is idempotent: serving the same verification
    request a second time leaves the state, table and response included, as
    the first one left it. *)
Theorem verifyEmail_idempotent (req : Request) (w : World) :
  serve OpVerifyEmail req (serve OpVerifyEmail req w) = serve OpVerifyEmail req w.
Proof.
  destruct (verifyToken (now w) (query_token req)) as [decoded|e] eqn:E.
  - rewrite (verifyEmail_verified_outcome req w decoded E).
    set (f := λ u, if (id u =? claim_id decoded)%Z then apply_patch mark_verified u else u).
    assert (Hf : ∀ u, (id (f u) =? claim_id decoded)%Z = (id u =? claim_id decoded)%Z).
    { intros u. unfold f. destruct (id u =? claim_id decoded)%Z eqn:Eu; [|exact Eu].
      exact Eu. }
    destruct (List.filter (λ u, (id u =? claim_id decoded)%Z) (users w)) as [|u rest] eqn:F.
    + rewrite (verifyEmail_verified_outcome req _ decoded) by exact E.
      world_simpl. rewrite F. world_ext; reflexivity.
    + rewrite (verifyEmail_verified_outcome req _ decoded) by exact E.
      world_simpl. fold f.
      rewrite (filter_map_stable (λ u, (id u =? claim_id decoded)%Z) f) by exact Hf.
      rewrite F. cbn [map].
      assert (Hu : (id u =? claim_id decoded)%Z = true).
      { apply (filter_head_elem _ _ _ _ F). }
      world_ext; try reflexivity.
      * rewrite map_map. apply map_ext. intros v. apply mark_twice.
      * unfold f at 1. rewrite Hu. reflexivity.
  - rewrite (verifyEmail_refused_outcome req w e E).
    rewrite (verifyEmail_refused_outcome req _ e) by exact E.
    world_ext; reflexivity.
Qed.

(** X7. An email verification reads nothing of the token but the id it
    decodes to: two requests whose tokens verify to claims with the same id
    have the same outcome, whatever else the claims say and whatever the
    tokens were issued for. *)
Theorem verifyEmail_reads_only_the_id (req1 req2 : Request) (w : World) (d1 d2 : Claims) :
  verifyToken (now w) (query_token req1) = Normal d1 →
  verifyToken (now w) (query_token req2) = Normal d2 →
  claim_id d1 = claim_id d2 →
  serve OpVerifyEmail req1 w = serve OpVerifyEmail req2 w.
Proof.
  intros E1 E2 Hid.
  rewrite (verifyEmail_verified_outcome req1 w d1 E1).
  rewrite (verifyEmail_verified_outcome req2 w d2 E2).
  rewrite Hid. reflexivity.
Qed.

(** X8. The failures of a verification are told apart by the message of what
    was thrown and by nothing else: two refused tokens whose errors have the
    same message have the same outcome; in particular an error with the
    message [Not Found] is answered with "no user found to verify" although
    no user was looked up, and the table is as it was. *)
Theorem verifyEmail_discriminates_by_message (req1 req2 : Request) (w : World) (e1 e2 : Thrown) :
  verifyToken (now w) (query_token req1) = Throw e1 →
  verifyToken (now w) (query_token req2) = Throw e2 →
  err_message e1 = err_message e2 →
  serve OpVerifyEmail req1 w = serve OpVerifyEmail req2 w
  ∧ users (serve OpVerifyEmail req1 w) = users w
  ∧ (err_message e1 = VStr "Not Found" →
     res (serve OpVerifyEmail req1 w) = error_only (VNum 400) (VStr "no user found to verify")).
Proof.
  intros E1 E2 Hm.
  rewrite (verifyEmail_refused_outcome req1 w e1 E1).
  rewrite (verifyEmail_refused_outcome req2 w e2 E2).
  rewrite Hm. split; [reflexivity|]. split; [reflexivity|].
  rewrite <- Hm. intros ->. reflexivity.
Qed.

End VerifyEmailOutcome.

(** ** Login, and what leads to it *)
Section LoginComposition.
Context `{Helpers}.

(** X9. A login sets the cookie exactly when the credentials match: if some
    user has the email and the password compares with its hash, the one cookie
    is [token], its value is the token of the shaped user in the reply, and
    that user is the first row with the email; and if any cookie is set at
    all, the credentials matched. Whether the email has been verified plays
    no part. *)
Theorem loginUser_cookie_iff_match (req : Request) (w : World) :
  (∀ u, UserModel.by_email (o_email (body req)) (users w) = Some u →
        comparePassword (o_password (body req)) (password u) = true →
        ∃ t shaped, res (serve OpLoginUser req w) = logged_in t shaped
                    ∧ r_token shaped = Some t ∧ r_id shaped = id u
                    ∧ r_isVerified shaped = isVerified u)
  ∧ (cookies (res (serve OpLoginUser req w)) ≠ [] →
     ∃ u, UserModel.by_email (o_email (body req)) (users w) = Some u
          ∧ comparePassword (o_password (body req)) (password u) = true).
Proof.
  split.
  - intros u Hu Hcmp. rewrite (loginUser_match req u w Hu Hcmp). cbv zeta.
    eexists _, _. split; [reflexivity|]. repeat split.
  - destruct (UserModel.by_email (o_email (body req)) (users w)) as [u|] eqn:Hu.
    + destruct (comparePassword (o_password (body req)) (password u)) eqn:Hcmp.
      * intros _. exists u. split; [reflexivity|exact Hcmp].
      * rewrite (loginUser_wrong_password req u w Hu Hcmp). cbn. congruence.
    + rewrite (loginUser_no_user req w Hu). cbn. congruence.
Qed.

Lemma by_email_app_new (e : string) (rows : list User) (row : User) :
  UserModel.by_email e rows = None → email row = e →
  UserModel.by_email e (rows ++ [row]) = Some row.
Proof.
  unfold UserModel.by_email. intros Hnone <-.
  induction rows as [|u rows IH]; cbn in *.
  - rewrite String.eqb_refl. reflexivity.
  - destruct (String.eqb (email u) (email row)); [discriminate|]. apply IH, Hnone.
Qed.

Lemma by_email_map (e : string) (f : User → User) (rows : list User) (u : User) :
  (∀ v, email (f v) = email v) →
  UserModel.by_email e rows = Some u →
  UserModel.by_email e (map (λ v, if String.eqb (email v) e then f v else v) rows) =
    Some (f u).
Proof.
  unfold UserModel.by_email. intros Hf.
  induction rows as [|v rows IH]; cbn; [discriminate|].
  destruct (String.eqb (email v) e) eqn:Ev.
  - intros [= ->]. rewrite Hf, Ev. reflexivity.
  - rewrite Ev. exact IH.
Qed.

(** X10. Signup and login compose: where the hasher and the comparison agree
    (a password compares with every hash of itself), a login with the email and
    the password of a signup that went through succeeds right after it, for
    the record that the signup created, which is still unverified. *)
Theorem signUp_then_login (req req' : Request) (w : World) :
  (∀ n p, comparePassword p (hashPassword n p) = true) →
  UserModel.by_email (o_email (body req)) (users w) = None →
  credentials (o_email (body req)) (o_password (body req)) req' →
  ∃ t shaped,
    res (serve OpLoginUser req' (serve OpSignUp req w)) = logged_in t shaped
    ∧ r_id shaped = nextId w
    ∧ r_email shaped = o_email (body req)
    ∧ r_isVerified shaped = false.
Proof.
  intros Hhash Hnone [He Hp].
  rewrite (signUp_outcome req w Hnone). cbv zeta.
  set (row := UserModel.new_row _ (nextId w)).
  match goal with |- context [serve OpLoginUser req' ?x] => set (w1 := x) end.
  assert (Hrow : UserModel.by_email (o_email (body req')) (users w1) = Some row).
  { subst w1. world_simpl. rewrite He.
    apply by_email_app_new; [exact Hnone|reflexivity]. }
  assert (Hcmp : comparePassword (o_password (body req')) (password row) = true).
  { rewrite Hp. apply Hhash. }
  rewrite (loginUser_match req' row w1 Hrow Hcmp). cbv zeta.
  eexists _, _. split; [reflexivity|]. repeat split.
Qed.

(** X11. Reset and login compose: after a password reset for the email of an
    existing user, a login with that email and the new password succeeds for
    that user where the hasher and the comparison agree, whatever the reset
    replied; and a login with a password that does not compare with the new
    hash, the old password for one, is rejected. *)
Theorem resetPassword_then_login (req req' : Request) (w : World) (u : User) :
  (∀ n p, comparePassword p (hashPassword n p) = true) →
  UserModel.by_email (params_email req) (users w) = Some u →
  o_email (body req') = params_email req →
  (o_password (body req') = o_password (body req) →
   ∃ t shaped,
     res (serve OpLoginUser req' (serve OpResetPassword req w)) = logged_in t shaped
     ∧ r_id shaped = id u)
  ∧ (comparePassword (o_password (body req'))
       (hashPassword (entropy w) (o_password (body req))) = false →
     res (serve OpLoginUser req' (serve OpResetPassword req w)) = invalid_login).
Proof.
  intros Hhash Hu He.
  rewrite (resetPassword_outcome req w). cbv zeta.
  set (fields := {| patch_isVerified := None; patch_password := Some _ |}).
  match goal with |- context [serve OpLoginUser req' ?x] => set (w1 := x) end.
  assert (Hrow : UserModel.by_email (o_email (body req')) (users w1) =
                 Some (apply_patch fields u)).
  { subst w1. world_simpl. rewrite He.
    apply (by_email_map _ (apply_patch fields)); [reflexivity|exact Hu]. }
  split.
  - intros Hp.
    assert (Hcmp : comparePassword (o_password (body req'))
                     (password (apply_patch fields u)) = true).
    { rewrite Hp. apply Hhash. }
    rewrite (loginUser_match req' _ w1 Hrow Hcmp). cbv zeta.
    eexists _, _. split; [reflexivity|]. reflexivity.
  - intros Hcmp.
    rewrite (loginUser_wrong_password req' _ w1 Hrow Hcmp). reflexivity.
Qed.

End LoginComposition.

(** ** Password reset, row by row *)
Section ResetRows.
Context `{Helpers}.

(** X12. A reset replies with success exactly when one row has the path
    email. Whatever it replies, the update has been made: afterwards every row
    with that email holds the hash of the new password, also when there are
    several and the reply is the 404, and every row with another email is as
    it was. *)
Theorem resetPassword_success_iff_one_row (req : Request) (w : World) :
  let e := params_email req in
  let h := hashPassword (entropy w) (o_password (body req)) in
  (replies (res (serve OpResetPassword req w)) = [password_changed]
   ↔ length (matching e w) = 1%nat)
  ∧ (length (matching e w) ≠ 1%nat →
     replies (res (serve OpResetPassword req w)) = [no_account])
  ∧ (∀ u, u ∈ users (serve OpResetPassword req w) → email u = e → password u = h)
  ∧ (∀ i u, users w !! i = Some u → email u ≠ e →
            users (serve OpResetPassword req w) !! i = Some u)
  ∧ length (users (serve OpResetPassword req w)) = length (users w).
Proof.
  cbv zeta. rewrite (resetPassword_outcome req w). cbv zeta. world_simpl.
  split; [|split; [|split; [|split]]].
  - destruct (Z.eqb_spec (Z.of_nat (length (matching (params_email req) w))) 1) as [E|E].
    + split; [lia|reflexivity].
    + split; [discriminate|lia].
  - intros Hne.
    destruct (Z.eqb_spec (Z.of_nat (length (matching (params_email req) w))) 1) as [E|E];
      [lia|reflexivity].
  - intros u Hin He. apply list_elem_of_fmap in Hin as (v & -> & Hv).
    destruct (String.eqb (email v) (params_email req)) eqn:Ev; [reflexivity|].
    apply String.eqb_neq in Ev. congruence.
  - intros i u Hi Hne. rewrite list_lookup_fmap, Hi. cbn.
    apply String.eqb_neq in Hne. rewrite Hne. reflexivity.
  - apply length_map.
Qed.

End ResetRows.

(** ** Rows along a run *)
Section RowsAlongRuns.
Context `{Helpers}.

Lemma same_identity_refl (u : User) : same_identity u u.
Proof. repeat split. Qed.

Lemma same_identity_trans (u v x : User) :
  same_identity u v → same_identity v x → same_identity u x.
Proof.
  unfold same_identity. intros (?&?&?&?&?&?) (?&?&?&?&?&?).
  repeat split; congruence.
Qed.

Lemma same_identity_patch (fields : UserPatch) (u : User) :
  same_identity u (apply_patch fields u).
Proof. repeat split. Qed.

Lemma step_keeps_rows (w : World) (ev : Event) (i : nat) (u : User) :
  users w !! i = Some u →
  ∃ u', users (step w ev) !! i = Some u' ∧ same_identity u u'.
Proof.
  intros Hi.
  destruct (step_table_change w ev) as [|req row Hev Hrow|req j Hev|req e h Hev].
  - exists u. split; [exact Hi|apply same_identity_refl].
  - exists u. split; [apply lookup_app_l_Some, Hi|apply same_identity_refl].
  - rewrite list_lookup_fmap, Hi. cbn.
    destruct (id u =? j)%Z; eexists; (split; [reflexivity|]).
    + apply same_identity_patch.
    + apply same_identity_refl.
  - rewrite list_lookup_fmap, Hi. cbn.
    destruct (String.eqb (email u) e); eexists; (split; [reflexivity|]).
    + apply same_identity_patch.
    + apply same_identity_refl.
Qed.

(** X13. No run of the flow removes a user or changes who a row is: a record
    that is in the table stays in its row through every run of events, with
    the id, email, names, role and other profile fields it had; only its
    password hash and its verification flag can differ. So the table never
    shrinks, and no operation of the flow changes an email or a role. *)
Theorem rows_keep_identity (w : World) (evs : list Event) (i : nat) (u : User) :
  users w !! i = Some u →
  (∃ u', users (run w evs) !! i = Some u' ∧ same_identity u u')
  ∧ (length (users w) ≤ length (users (run w evs)))%nat.
Proof.
  intros Hi.
  assert (Hrow : ∃ u', users (run w evs) !! i = Some u' ∧ same_identity u u').
  { revert w u Hi. induction evs as [|ev evs IH]; intros w u Hi.
    - exists u. split; [exact Hi|apply same_identity_refl].
    - rewrite run_cons.
      destruct (step_keeps_rows w ev i u Hi) as (v & Hv & Huv).
      destruct (IH _ _ Hv) as (x & Hx & Hvx).
      exists x. split; [exact Hx|]. eapply same_identity_trans; eassumption. }
  split; [exact Hrow|].
  clear Hrow Hi. revert w. induction evs as [|ev evs IH]; intros w; [reflexivity|].
  rewrite run_cons. etransitivity; [|apply IH].
  destruct (step_table_change w ev) as [|req row Hev Hrow|req j Hev|req e h Hev].
  - reflexivity.
  - rewrite length_app. lia.
  - rewrite length_map. reflexivity.
  - rewrite length_map. reflexivity.
Qed.

(** X14. A stored password hash changes only by a password reset for the
    email of its row: if an event leaves a row with another hash than it had,
    the event is a [resetPassword] request whose path email is the email of
    that row. A login, a verification or a signup by someone else never
    touches it. *)
Theorem password_changes_only_by_reset (w : World) (ev : Event) (i : nat) (u u' : User) :
  users w !! i = Some u →
  users (step w ev) !! i = Some u' →
  password u' ≠ password u →
  ∃ req, ev = Served OpResetPassword req ∧ params_email req = email u.
Proof.
  intros Hi Hi' Hne.
  destruct ev as [op req|t up].
  - assert (Hcases : op = OpResetPassword ∨ op ≠ OpResetPassword)
      by (destruct op; (left; reflexivity) || (right; discriminate)).
    destruct Hcases as [->|Hop].
    + exists req. split; [reflexivity|].
      cbn [step] in Hi'. rewrite (resetPassword_outcome req w) in Hi'.
      cbv zeta in Hi'. world_simpl. rewrite list_lookup_fmap, Hi in Hi'. cbn in Hi'.
      destruct (String.eqb (email u) (params_email req)) eqn:E.
      * symmetry. apply String.eqb_eq, E.
      * congruence.
    + exfalso.
      destruct (step_table_change w (Served op req)) as [|r row Hev Hrow|r j Hev|r e h Hev].
      * congruence.
      * rewrite (lookup_app_l_Some _ _ _ _ Hi) in Hi'. congruence.
      * rewrite list_lookup_fmap, Hi in Hi'. cbn in Hi'.
        destruct (id u =? j)%Z; injection Hi' as <-; apply Hne; reflexivity.
      * congruence.
  - cbn in Hi'. congruence.
Qed.

End RowsAlongRuns.

(** ** Signup, the other way *)
Section SignUpTaken.
Context `{Helpers}.

(** The whole effect of a signup for an email that is taken. *)
Lemma signUp_taken_outcome (req : Request) (w : World) (u : User) :
  UserModel.by_email (o_email (body req)) (users w) = Some u →
  let h := hashPassword (entropy w) (o_password (body req)) in
  serve OpSignUp req w =
    set_res (λ _, error_only VUndefined VUndefined)
      (set_entropy S (set_heap (λ hp, hp ++ [set_o_password h (body req)]) w)).
Proof.
  intros Hu. cbv zeta.
  assert (Hex : existsb (λ u, String.eqb (email u) (o_email (body req))) (users w) = true).
  { revert Hu. unfold UserModel.by_email.
    induction (users w) as [|v rows IH]; [discriminate|].
    cbn. destruct (String.eqb (email v) _); [reflexivity|]. exact IH. }
  unfold serve, handler, AuthController.signUp, alloc, AuthController.issue.
  unfold exec, try_catch, mbind, Js_bind, js_bind.
  rewrite (create_outcome (length (heap w)) (body req)).
  2:{ world_simpl. rewrite lookup_app_r by lia. rewrite Nat.sub_diag. reflexivity. }
  world_simpl. rewrite Hex. unfold respond, modify. world_simpl.
  world_ext; try reflexivity.
  rewrite (alter_app_r_alt _ (heap w) [body req] (length (heap w))) by lia.
  rewrite Nat.sub_diag. reflexivity.
Qed.


(** X16. A signup works on a copy of the request body: every object that was
    on the heap before the request is the same after it, whether the signup
    went through or not. The only object that gets the hash written into it
    is the copy, which is new. *)
Theorem signUp_leaves_existing_objects (req : Request) (w : World) :
  (∀ l o, heap w !! l = Some o → heap (serve OpSignUp req w) !! l = Some o)
  ∧ heap (serve OpSignUp req w) !! length (heap w) =
      Some (set_o_password (hashPassword (entropy w) (o_password (body req))) (body req)).
Proof.
  assert (Hheap : heap (serve OpSignUp req w) =
            heap w ++ [set_o_password (hashPassword (entropy w) (o_password (body req)))
                         (body req)]).
  { destruct (UserModel.by_email (o_email (body req)) (users w)) as [u|] eqn:E.
    - rewrite (signUp_taken_outcome req w u E). reflexivity.
    - rewrite (signUp_outcome req w E). reflexivity. }
  rewrite Hheap. split.
  - intros l o Hl. apply lookup_app_l_Some, Hl.
  - apply list_lookup_middle. reflexivity.
Qed.

End SignUpTaken.

(** ** The reset handshake *)
Section ResetHandshake.
Context `{Helpers}.

(** The whole effect of checking a reset link. *)
Lemma verifyPasswordResetLink_outcome (req : Request) (w : World) :
  serve OpVerifyPasswordResetLink req w =
    set_res (λ _,
      match verifyToken (now w) (query_token req) with
      | Normal decoded =>
          {| cookies := [];
             replies := [goto req (default "undefined" (claim_email decoded))] |}
      | Throw err =>
          error_only (js_or (err_status err) (VNum 500))
            (VStr ("Verification unsuccessful, " +:+ to_template (err_message err)))
      end) w.
Proof.
  unfold serve, handler, AuthController.verifyPasswordResetLink, AuthController.verify.
  js_run. world_simpl.
  destruct (verifyToken (now w) (query_token req)) as [decoded|err]; [|reflexivity].
  destruct (claim_email decoded); reflexivity.
Qed.

(** The whole effect of a request for a reset link by a known user. *)
Lemma sendResetPasswordEmail_found_outcome (req : Request) (w : World) (user : User) :
  let e := o_email (body req) in
  UserModel.by_email e (users w) = Some user →
  let t := generateToken (now w) (reset_claims user e) (Some "24h") in
  serve OpSendResetPasswordEmail req w =
    set_res (λ _,
      if mailerUp w
      then {| cookies := [];
              replies := [successResponse (DText "Password reset link sent successfully")
                            (Some 200%Z)] |}
      else error_only (VNum 404) (VBool false))
      (set_outbox (λ o, o ++ [ResetMail e (firstName user) (AuthController.reset_link req t)]) w).
Proof.
  cbv zeta. intros Hu.
  unfold serve, handler, AuthController.sendResetPasswordEmail,
    UserService.find, UserModel.findOne, AuthController.issue.
  js_run. world_simpl. rewrite Hu.
  rewrite sendResetMail_reports. world_simpl.
  destruct (mailerUp w); reflexivity.
Qed.

(** X17. Checking a reset link: a token that the verification refuses with a
    plain error is answered with status 500 (the error has no status of its
    own) and the error's message behind "Verification unsuccessful, "; a
    token that verifies is answered with the address of the reset endpoint for
    the email in its claims, and for claims without an email that address
    ends in "undefined"; the answer depends on nothing else in the claims,
    and nothing but the response changes. *)
Theorem verifyPasswordResetLink_outcomes (req : Request) (w : World) :
  (∀ m, verifyToken (now w) (query_token req) = Throw (JsError m) →
        serve OpVerifyPasswordResetLink req w =
          set_res (λ _, error_only (VNum 500) (VStr ("Verification unsuccessful, " +:+ m))) w)
  ∧ (∀ decoded e,
       verifyToken (now w) (query_token req) = Normal decoded →
       claim_email decoded = Some e →
       serve OpVerifyPasswordResetLink req w =
         set_res (λ _, {| cookies := []; replies := [goto req e] |}) w)
  ∧ (∀ decoded,
       verifyToken (now w) (query_token req) = Normal decoded →
       claim_email decoded = None →
       serve OpVerifyPasswordResetLink req w =
         set_res (λ _, {| cookies := []; replies := [goto req "undefined"] |}) w).
Proof.
  rewrite verifyPasswordResetLink_outcome.
  split; [|split].
  - intros m ->. reflexivity.
  - intros decoded e -> ->. reflexivity.
  - intros decoded -> ->. reflexivity.
Qed.

(** X18. The handshake goes through end to end. For a user whose email is
    in the table once, with the mail provider up, a hasher and a comparison
    that agree and a token that verifies to the email it was issued for: the
    request for a link mails the link with the issued token and replies 200;
    checking that token replies with the reset address for the user's email;
    the reset to that address replies that the password has been changed; and
    a login with the email and the new password then succeeds for that
    user. *)
Theorem reset_handshake (req1 req2 req3 req4 : Request) (w : World) (u : User) (d : Claims) :
  let e := o_email (body req1) in
  let t := generateToken (now w) (reset_claims u e) (Some "24h") in
  (∀ n p, comparePassword p (hashPassword n p) = true) →
  UserModel.by_email e (users w) = Some u →
  length (matching e w) = 1%nat →
  mailerUp w = true →
  query_token req2 = t →
  verifyToken (now w) t = Normal d →
  claim_email d = Some e →
  params_email req3 = e →
  credentials e (o_password (body req3)) req4 →
  let w1 := serve OpSendResetPasswordEmail req1 w in
  let w2 := serve OpVerifyPasswordResetLink req2 w1 in
  let w3 := serve OpResetPassword req3 w2 in
  let w4 := serve OpLoginUser req4 w3 in
  outbox w1 = outbox w ++ [ResetMail e (firstName u) (AuthController.reset_link req1 t)]
  ∧ replies (res w1) =
      [successResponse (DText "Password reset link sent successfully") (Some 200%Z)]
  ∧ replies (res w2) = [goto req2 e]
  ∧ replies (res w3) = [password_changed]
  ∧ ∃ t' shaped, res w4 = logged_in t' shaped ∧ r_id shaped = id u.
Proof.
  cbv zeta. intros Hhash Hu Hone Hup Htok Hver Hmail Hpath [He Hp].
  rewrite (sendResetPasswordEmail_found_outcome req1 w u Hu). cbv zeta.
  rewrite Hup.
  match goal with |- context [serve OpVerifyPasswordResetLink req2 ?x] => set (w1 := x) end.
  split; [reflexivity|]. split; [reflexivity|].
  rewrite (verifyPasswordResetLink_outcome req2 w1).
  assert (Hver1 : verifyToken (now w1) (query_token req2) = Normal d).
  { rewrite Htok. exact Hver. }
  rewrite Hver1, Hmail. cbn [default].
  match goal with |- context [serve OpResetPassword req3 ?x] => set (w2 := x) end.
  split; [reflexivity|].
  rewrite (resetPassword_outcome req3 w2). cbv zeta.
  change (matching (params_email req3) w2) with (matching (params_email req3) w).
  rewrite Hpath, Hone. cbn [Z.of_nat Pos.of_succ_nat Z.eqb Pos.eqb].
  set (fields := {| patch_isVerified := None; patch_password := Some _ |}).
  match goal with |- context [serve OpLoginUser req4 ?x] => set (w3 := x) end.
  split; [reflexivity|].
  assert (Hrow : UserModel.by_email (o_email (body req4)) (users w3) =
                 Some (apply_patch fields u)).
  { subst w3. world_simpl. rewrite He.
    apply (by_email_map _ (apply_patch fields)); [reflexivity|exact Hu]. }
  assert (Hcmp : comparePassword (o_password (body req4))
                   (password (apply_patch fields u)) = true).
  { rewrite Hp. apply Hhash. }
  rewrite (loginUser_match req4 _ w3 Hrow Hcmp). cbv zeta.
  eexists _, _. split; reflexivity.
Qed.

End ResetHandshake.

(** * The further properties, on the sample deployment *)
Section SampleRuns.
#[local] Existing Instance Sample.helpers.

(** Verifying by an id that no row has, and by the id of the sample user. *)
Lemma updateById_throws_iff_no_row_witness :
  completion (UserService.updateById mark_verified 9) Sample.seeded =
    Throw (JsError "Not Found")
  ∧ exec (UserService.updateById mark_verified 9) Sample.seeded = Sample.seeded
  ∧ ∃ u, completion (UserService.updateById mark_verified 1) Sample.seeded =
           Normal (Some (apply_patch mark_verified u)) ∧ id u = 1%Z.
Proof.
  pose proof (updateById_throws_iff_no_row mark_verified 9 Sample.seeded) as (Hiff & Hsame & _).
  pose proof (updateById_throws_iff_no_row mark_verified 1 Sample.seeded) as (_ & _ & Hret).
  assert (Hthrow : completion (UserService.updateById mark_verified 9) Sample.seeded =
                   Throw (JsError "Not Found")).
  { apply Hiff. intros u Hu. apply list_elem_of_singleton in Hu. subst u. discriminate. }
  split; [exact Hthrow|]. split; [exact (Hsame Hthrow)|].
  destruct (Hret _ eq_refl) as (u & Hu & _ & Hid).
  exists u. split; [rewrite <- Hu; reflexivity|exact Hid].
Defined.

(** A login on the seeded store touches nothing but the response. *)
Lemma serve_footprint_witness :
  heap (serve OpLoginUser Sample.request Sample.seeded) = heap Sample.seeded
  ∧ entropy (serve OpLoginUser Sample.request Sample.seeded) = entropy Sample.seeded
  ∧ outbox (serve OpLoginUser Sample.request Sample.seeded) = outbox Sample.seeded
  ∧ users (serve OpLoginUser Sample.request Sample.seeded) = users Sample.seeded.
Proof.
  pose proof (serve_footprint (H:=Sample.helpers) OpLoginUser Sample.request Sample.seeded)
    as (_ & _ & Hheap & Hent & Hout & Husers).
  split; [apply Hheap; discriminate|].
  split; [apply Hent; discriminate|].
  split; [apply Hout; discriminate|].
  apply Husers; discriminate.
Defined.

(** Two requests with the sample user's token, differing in their bodies. *)
Lemma verifyEmail_reads_only_the_id_witness :
  serve OpVerifyEmail Sample.request Sample.seeded =
  serve OpVerifyEmail (Sample.with_password "other" Sample.request) Sample.seeded.
Proof.
  apply (verifyEmail_reads_only_the_id (H:=Sample.helpers) Sample.request
           (Sample.with_password "other" Sample.request) Sample.seeded
           (Sample.claims_of 1) (Sample.claims_of 1));
    reflexivity.
Defined.

(** Two tokens that are refused with the same message. *)
Lemma verifyEmail_discriminates_by_message_witness :
  serve OpVerifyEmail (Sample.with_token "tampered" Sample.request) Sample.seeded =
  serve OpVerifyEmail (Sample.with_token "forged" Sample.request) Sample.seeded.
Proof.
  apply (verifyEmail_discriminates_by_message (H:=Sample.helpers)
           (Sample.with_token "tampered" Sample.request)
           (Sample.with_token "forged" Sample.request) Sample.seeded
           (JsError "Invalid Token") (JsError "Invalid Token"));
    reflexivity.
Defined.

(** The sample user logs in; a guess does not. *)
Lemma loginUser_cookie_iff_match_witness :
  (∃ t shaped, res (serve OpLoginUser Sample.request Sample.seeded) = logged_in t shaped
               ∧ r_token shaped = Some t)
  ∧ cookies (res (serve OpLoginUser (Sample.with_password "guess" Sample.request)
                    Sample.seeded)) = [].
Proof.
  split; [|reflexivity].
  destruct (proj1 (loginUser_cookie_iff_match (H:=Sample.helpers) Sample.request Sample.seeded)
              Sample.king_row eq_refl eq_refl) as (t & shaped & E & Ht & _).
  exists t, shaped. split; [exact E|exact Ht].
Defined.

(** The sample signup on the empty store, and the login after it. *)
Lemma signUp_then_login_witness :
  ∃ t shaped,
    res (serve OpLoginUser Sample.request (serve OpSignUp Sample.request Sample.empty)) =
      logged_in t shaped
    ∧ r_id shaped = 1%Z.
Proof.
  destruct (signUp_then_login (H:=Sample.helpers) Sample.request Sample.request Sample.empty)
    as (t & shaped & E & Hid & _).
  - intros n p. cbn. apply String.eqb_refl.
  - reflexivity.
  - split; reflexivity.
  - exists t, shaped. split; [exact E|exact Hid].
Defined.

(** A reset to another password: the new one logs in, the old one does not. *)
Lemma resetPassword_then_login_witness :
  (∃ t shaped,
     res (serve OpLoginUser (Sample.with_password "Another12345" Sample.request)
            (serve OpResetPassword (Sample.with_password "Another12345" Sample.request)
               Sample.seeded)) = logged_in t shaped
     ∧ r_id shaped = 1%Z)
  ∧ res (serve OpLoginUser Sample.request
           (serve OpResetPassword (Sample.with_password "Another12345" Sample.request)
              Sample.seeded)) = invalid_login.
Proof.
  split.
  - apply (proj1 (resetPassword_then_login (H:=Sample.helpers)
                    (Sample.with_password "Another12345" Sample.request)
                    (Sample.with_password "Another12345" Sample.request)
                    Sample.seeded Sample.king_row
                    (λ n p, String.eqb_refl _) eq_refl eq_refl)).
    reflexivity.
  - apply (proj2 (resetPassword_then_login (H:=Sample.helpers)
                    (Sample.with_password "Another12345" Sample.request)
                    Sample.request
                    Sample.seeded Sample.king_row
                    (λ n p, String.eqb_refl _) eq_refl eq_refl)).
    reflexivity.
Defined.

(** One row with the email, and none. *)
Lemma resetPassword_success_iff_one_row_witness :
  replies (res (serve OpResetPassword Sample.request Sample.seeded)) = [password_changed]
  ∧ replies (res (serve OpResetPassword Sample.request Sample.empty)) = [no_account].
Proof.
  split.
  - apply (proj1 (resetPassword_success_iff_one_row (H:=Sample.helpers) Sample.request Sample.seeded)).
    reflexivity.
  - apply (proj1 (proj2 (resetPassword_success_iff_one_row (H:=Sample.helpers) Sample.request Sample.empty))).
    discriminate.
Defined.

(** The sample user's row through the sample session. *)
Lemma rows_keep_identity_witness :
  ∃ u', users (run Sample.seeded Sample.session) !! 0%nat = Some u'
        ∧ same_identity Sample.king_row u'.
Proof.
  exact (proj1 (rows_keep_identity (H:=Sample.helpers) Sample.seeded Sample.session 0%nat Sample.king_row eq_refl)).
Defined.

(** The reset that changes the sample user's hash is a reset for its email. *)
Lemma password_changes_only_by_reset_witness :
  ∃ req, Served OpResetPassword (Sample.with_password "Another12345" Sample.request) =
           Served OpResetPassword req
         ∧ params_email req = "jubilee.barefootnomad@gmail.com".
Proof.
  apply (password_changes_only_by_reset (H:=Sample.helpers) Sample.seeded
           (Served OpResetPassword (Sample.with_password "Another12345" Sample.request))
           0%nat Sample.king_row Sample.king_row_reset).
  - reflexivity.
  - reflexivity.
  - discriminate.
Defined.


(** The object that a caller holds is not touched by a signup. *)
Lemma signUp_leaves_existing_objects_witness :
  heap (serve OpSignUp Sample.request Sample.holding) !! 0%nat = Some Sample.king.
Proof.
  apply (proj1 (signUp_leaves_existing_objects (H:=Sample.helpers) Sample.request Sample.holding)).
  reflexivity.
Defined.

(** A refused token, and the sample user's token, which carries no email. *)
Lemma verifyPasswordResetLink_outcomes_witness :
  res (serve OpVerifyPasswordResetLink (Sample.with_token "tampered" Sample.request)
         Sample.seeded) =
    error_only (VNum 500) (VStr "Verification unsuccessful, Invalid Token")
  ∧ res (serve OpVerifyPasswordResetLink Sample.request Sample.seeded) =
      {| cookies := [];
         replies := [successResponse
                       (DText "Goto https://jubilee.test/api/auth/password/reset/undefined using POST Method")
                       (Some 200%Z)] |}.
Proof.
  split.
  - rewrite (proj1 (verifyPasswordResetLink_outcomes (H:=Sample.helpers)
                      (Sample.with_token "tampered" Sample.request) Sample.seeded)
               "Invalid Token" eq_refl).
    reflexivity.
  - rewrite (proj2 (proj2 (verifyPasswordResetLink_outcomes (H:=Sample.helpers) Sample.request Sample.seeded))
               (Sample.claims_of 1) eq_refl eq_refl).
    reflexivity.
Defined.

End SampleRuns.

(** The handshake for the sample user, with tokens that name the email. *)
Lemma reset_handshake_witness :
  let e := "jubilee.barefootnomad@gmail.com" in
  let new := Sample.with_password "Another12345" Sample.request in
  let w1 := @serve Sample.echo_helpers OpSendResetPasswordEmail Sample.request Sample.seeded in
  let w2 := @serve Sample.echo_helpers OpVerifyPasswordResetLink (Sample.with_token e new) w1 in
  let w3 := @serve Sample.echo_helpers OpResetPassword new w2 in
  let w4 := @serve Sample.echo_helpers OpLoginUser new w3 in
  replies (res w2) = [goto (Sample.with_token e new) e]
  ∧ replies (res w3) = [password_changed]
  ∧ ∃ t' shaped, res w4 = logged_in t' shaped ∧ r_id shaped = 1%Z.
Proof.
  cbv zeta.
  pose proof (@reset_handshake Sample.echo_helpers Sample.request
                (Sample.with_token "jubilee.barefootnomad@gmail.com"
                   (Sample.with_password "Another12345" Sample.request))
                (Sample.with_password "Another12345" Sample.request)
                (Sample.with_password "Another12345" Sample.request)
                Sample.seeded Sample.king_row
                {| claim_id := 0; claim_email := Some "jubilee.barefootnomad@gmail.com";
                   claim_role := None; claim_firstName := None |}
                (λ n p, String.eqb_refl _) eq_refl eq_refl eq_refl eq_refl eq_refl eq_refl
                eq_refl (conj eq_refl eq_refl)) as (_ & _ & E2 & E3 & E4).
  split; [exact E2|]. split; [exact E3|exact E4].
Defined.
